(** * Xiaomi gateway component (homeassistant/components/xiaomi.py)

    A shallow embedding of the component and the properties its
    specification states about it.

    Conventions of the embedding.
    - Python [int] is [Z]; Python [float] is the kernel's binary64
      [float] (IEEE 754, round to nearest even), so [/], [*] and
      [round] compute what CPython computes.
    - A [dict] whose order matters ([hub.gateways.items()]) is an
      association list in iteration order; a [dict] used as a map is a
      [gmap].
    - A raised exception is the [Raise] case of [result]; calls made on
      collaborators (logger, hub, host) are recorded as a trace of
      [effect]s, in program order.
    - [str] is [string]; [lower] acts on the ASCII letters, which is all
      a gateway identifier (a MAC address in hex) contains. *)

From Stdlib Require Import ZArith QArith Qabs Lia List Ascii String.
From Stdlib Require Import PrimFloat FloatOps SpecFloat.
From stdpp Require Import base option gmap strings list.

Local Open Scope string_scope.
Local Open Scope list_scope.
Local Open Scope Z_scope.

(** ** Python values and exceptions *)

(** The scalars a gateway report or an attribute snapshot holds. *)
Inductive value : Type :=
| VInt (z : Z)
| VStr (s : string).

Inductive exn : Type :=
| TypeError
| ValueError
| OverflowError
| NotImplementedError.

Inductive result (A : Type) : Type :=
| Ok (a : A)
| Raise (e : exn).

Arguments Ok {A} a.
Arguments Raise {A} e.

#[global] Instance result_ret : MRet result := fun _ a => Ok a.
#[global] Instance result_bind : MBind result := fun _ _ f m =>
  match m with
  | Ok a => f a
  | Raise e => Raise e
  end.

(** ** Strings: [str.replace(c, "")] and [str.lower()] *)

(** [s.replace(c, "")] for a one-character [c]: every occurrence goes. *)
Fixpoint str_remove (c : ascii) (s : string) : string :=
  match s with
  | EmptyString => EmptyString
  | String a s' =>
      if Ascii.eqb a c then str_remove c s' else String a (str_remove c s')
  end.

Definition is_upper (a : ascii) : bool :=
  let n := nat_of_ascii a in (65 <=? n)%nat && (n <=? 90)%nat.

Definition ascii_lower (a : ascii) : ascii :=
  if is_upper a then ascii_of_nat (nat_of_ascii a + 32) else a.

(** [s.lower()] *)
Fixpoint str_lower (s : string) : string :=
  match s with
  | EmptyString => EmptyString
  | String a s' => String (ascii_lower a) (str_lower s')
  end.

Definition colon : ascii := Ascii.ascii_of_nat 58.

(** xiaomi.py:46, the right-hand side
    [gateway['sid'].replace(":", "").lower()]. *)
Definition normalize_sid (sid : string) : string :=
  str_lower (str_remove colon sid).

Fixpoint str_forallb (p : ascii -> bool) (s : string) : bool :=
  match s with
  | EmptyString => true
  | String a s' => p a && str_forallb p s'
  end.

(** ** Floating point: [int / int], [float * int], [round(float)] *)

(** [float(z)]: the binary64 nearest to [z]. *)
Definition Z2float (z : Z) : float :=
  SF2Prim (binary_normalize prec emax z 0 false).

(** [a / b] on Python ints.  CPython returns the correctly rounded
    quotient; for operands below 2^53 in magnitude, as here, that is
    the binary64 division of the two converted operands. *)
Definition int_truediv (a b : Z) : float :=
  PrimFloat.div (Z2float a) (Z2float b).

(** [x * n] for a float [x] and an int [n]. *)
Definition float_mul_int (x : float) (n : Z) : float :=
  PrimFloat.mul x (Z2float n).

(** [round(x)] with one argument: the nearest integer, ties to the even
    one; [ValueError] on a NaN and [OverflowError] on an infinity. *)
Definition py_round (x : float) : result Z :=
  match Prim2SF x with
  | S754_zero _ => Ok 0
  | S754_finite sign m e =>
      let n :=
        if 0 <=? e then Z.shiftl (Z.pos m) e
        else
          let d := Z.shiftl 1 (- e) in
          let q := Z.pos m / d in
          let r := Z.pos m mod d in
          if d <? 2 * r then q + 1
          else if d =? 2 * r then (if Z.even q then q else q + 1)
          else q in
      Ok (if sign then - n else n)
  | S754_infinity _ => Raise OverflowError
  | S754_nan => Raise ValueError
  end.

(** ** Calls on collaborators *)

Inductive level : Type := DEBUG | INFO | WARNING | ERROR.

(** What the component does to the logger, the hub client, the host and
    a device's own methods, in the order it does it.  A log entry keeps
    its message template. *)
Inductive effect : Type :=
| Log (lvl : level) (msg : string)
| DiscoverGateways
| Listen
| ListenOnceStop
| LoadPlatform (component : string)
| RegisterService (domain service : string)
| WriteToHub (gateway : string) (sid : string) (kwargs : gmap string Z)
| CallParseData
| CallParseVoltage
| ScheduleUpdateHaState.

Definition is_write (e : effect) : bool :=
  match e with WriteToHub _ _ _ => true | _ => false end.

Definition is_discover (e : effect) : bool :=
  match e with DiscoverGateways => true | _ => false end.

(** ** class XiaomiDevice *)

(** Modelled from the spec: the constant [ATTR_BATTERY_LEVEL] is imported
    from homeassistant.const, which is not among the sources; the spec
    calls it a fixed attribute key.  No property below depends on its
    spelling. *)
Definition ATTR_BATTERY_LEVEL : string := "battery_level".

(** An instance: the fields [__init__] sets, and the state [St] a
    concrete device class adds. *)
Record XiaomiDevice (St : Type) : Type := mkDevice {
  _sid : string;
  _name : string;
  _device_state_attributes : gmap string value;
  variant_state : St
}.

Arguments mkDevice {St} _ _ _ _.
Arguments _sid {St} _.
Arguments _name {St} _.
Arguments _device_state_attributes {St} _.
Arguments variant_state {St} _.

Definition set_attributes {St} (self : XiaomiDevice St)
    (attrs : gmap string value) : XiaomiDevice St :=
  mkDevice (_sid self) (_name self) attrs (variant_state self).

(** The abstract method: each device class brings its own [parse_data],
    which may update the instance, answers whether something changed,
    and may raise. *)
Class DeviceVariant (St : Type) : Type := {
  parse_data : XiaomiDevice St -> gmap string value ->
               result (bool * XiaomiDevice St)
}.

(** xiaomi.py:184-186, the base class. *)
Definition base_parse_data {St} (self : XiaomiDevice St)
    (data : gmap string value) : result (bool * XiaomiDevice St) :=
  Raise NotImplementedError.

Definition max_volt : Z := 3300.
Definition min_volt : Z := 2800.

(** xiaomi.py:178-181 on an int reading: the value stored under
    [ATTR_BATTERY_LEVEL]. *)
Definition battery_percent (voltage : Z) : result Z :=
  let voltage := Z.min voltage max_volt in
  let voltage := Z.max voltage min_volt in
  let percent :=
    float_mul_int (int_truediv (voltage - min_volt) (max_volt - min_volt)) 100 in
  py_round percent.

(** xiaomi.py:171-182.  [min] of a [str] and an [int] raises
    [TypeError]. *)
Definition parse_voltage {St} (self : XiaomiDevice St)
    (data : gmap string value) : result (bool * XiaomiDevice St) :=
  match data !! "voltage" with
  | None => Ok (false, self)
  | Some (VStr _) => Raise TypeError
  | Some (VInt voltage) =>
      level ← battery_percent voltage;
      Ok (true,
          set_attributes self
            (<[ATTR_BATTERY_LEVEL := VInt level]> (_device_state_attributes self)))
  end.

(** xiaomi.py:164-169.  Python's [or] evaluates its right operand only
    when the left one is false. *)
Definition push_data {St} `{DeviceVariant St} (self : XiaomiDevice St)
    (data : gmap string value) : result (XiaomiDevice St * list effect) :=
  r ← parse_data self data;
  let '(changed, self) := (r : bool * XiaomiDevice St) in
  if changed then
    Ok (self, [Log DEBUG "PUSH >> %s: %s"; CallParseData; ScheduleUpdateHaState])
  else
    r ← parse_voltage self data;
    let '(changed, self) := (r : bool * XiaomiDevice St) in
    Ok (self,
        [Log DEBUG "PUSH >> %s: %s"; CallParseData; CallParseVoltage]
          ++ (if changed then [ScheduleUpdateHaState] else [])).

(** A device as the gateway library reports it: [device['sid']] and
    [device['data']]. *)
Record DeviceReport : Type := mkReport {
  report_sid : string;
  report_data : gmap string value
}.

(** xiaomi.py:139-147.  [st] is what the concrete class has set before
    it calls the base initialiser; [ha_devices] is the hub's table of
    handlers per device identifier, each list in registration order. *)
Definition XiaomiDevice_init {St} `{DeviceVariant St} (st : St)
    (device : DeviceReport) (name : string)
    (ha_devices : gmap string (list (XiaomiDevice St)))
  : result (XiaomiDevice St * gmap string (list (XiaomiDevice St))) :=
  let self :=
    mkDevice (report_sid device) (name ++ "_" ++ report_sid device)%string ∅ st in
  r ← parse_data self (report_data device);
  let self := set_attributes (snd (r : bool * XiaomiDevice St)) ∅ in
  r ← parse_voltage self (report_data device);
  let self := snd (r : bool * XiaomiDevice St) in
  Ok (self,
      <[_sid self := default [] (ha_devices !! _sid self) ++ [self]]>
        ha_devices).

(** ** Configuration and the hub client *)

(** One entry of [config[DOMAIN][CONF_GATEWAYS]]. *)
Record GatewayConfig : Type := mkGatewayConfig {
  conf_sid : option string;
  conf_key : option string
}.

(** [config[DOMAIN]] after schema validation; [cv.positive_int] leaves a
    non-negative int, which [range] then counts. *)
Record Config : Type := mkConfig {
  conf_gateways : list GatewayConfig;
  conf_interface : string;
  conf_discovery_retry : nat
}.

(** A discovered gateway, as far as the component reads it. *)
Record XiaomiGateway : Type := mkGateway {
  sid : string
}.

(** The hub client of the PyXiaomiGateway library, by the operations the
    component uses: the constructor, [discover_gateways()], the
    [gateways] dict in iteration order, [listen()] and [stop_listen()]. *)
Class GatewayClient (C : Type) : Type := {
  PyXiaomiGateway : list GatewayConfig -> string -> C;
  discover_gateways : C -> C;
  gateways : C -> list (string * XiaomiGateway);
  listen : C -> C;
  stop_listen : C -> C
}.

Definition DOMAIN : string := "xiaomi".

Definition XIAOMI_COMPONENTS : list string :=
  ["binary_sensor"; "sensor"; "switch"; "light"; "cover"].

(** xiaomi.py:42-55, the loop over the configured gateways: the log it
    leaves, and the entries with their identifiers normalised, or [None]
    where the loop returns [False]. *)
Fixpoint check_gateways (gws : list GatewayConfig)
  : list effect * option (list GatewayConfig) :=
  match gws with
  | [] => ([], Some [])
  | gateway :: rest =>
      let gateway :=
        mkGatewayConfig (normalize_sid <$> conf_sid gateway) (conf_key gateway) in
      match conf_key gateway with
      | None =>
          let '(log, r) := check_gateways rest in
          (Log WARNING "Gateway Key is not provided. Controlling gateway device will not be possible." :: log,
           cons gateway <$> r)
      | Some key =>
          if (String.length key =? 16)%nat then
            let '(log, r) := check_gateways rest in
            (log, cons gateway <$> r)
          else
            ([Log ERROR "Invalid key %s. Key must be 16 characters"], None)
      end
  end.

(** xiaomi.py:62-66: [retry] iterations are left, [expected] is
    [len(gateways)]. *)
Fixpoint discovery_loop {C} `{GatewayClient C} (retry : nat) (expected : nat)
    (hub : C) : C * list effect :=
  match retry with
  | O => (hub, [])
  | S retry' =>
      let hub := discover_gateways hub in
      let tr := [Log INFO "Discovering Xiaomi Gateways (Try %s)"; DiscoverGateways] in
      if (expected <=? length (gateways hub))%nat then (hub, tr)
      else
        let '(hub, tr') := discovery_loop retry' expected hub in
        (hub, tr ++ tr')
  end.

Record SetupResult (C : Type) : Type := mkSetup {
  setup_ok : bool;
  setup_hub : option C;
  setup_trace : list effect
}.

Arguments mkSetup {C} _ _ _.
Arguments setup_ok {C} _.
Arguments setup_hub {C} _.
Arguments setup_trace {C} _.

(** xiaomi.py:36-133: the value returned, [hass.data[PY_XIAOMI_GATEWAY]]
    when it was set, and the calls made. *)
Definition setup {C} `{GatewayClient C} (config : Config) : SetupResult C :=
  match check_gateways (conf_gateways config) with
  | (log, None) => mkSetup false None log
  | (log, Some gws) =>
      let hub := PyXiaomiGateway gws (conf_interface config) in
      let '(hub, tr) :=
        discovery_loop (conf_discovery_retry config) (length gws) hub in
      let log := log ++ Log INFO "Expecting %s gateways" :: tr in
      match gateways hub with
      | [] => mkSetup false (Some hub) (log ++ [Log ERROR "No gateway discovered"])
      | _ :: _ =>
          mkSetup true (Some (listen hub))
            (log ++ [Listen; Log INFO "Listening for broadcast"; ListenOnceStop]
                 ++ map LoadPlatform XIAOMI_COMPONENTS
                 ++ [RegisterService DOMAIN "play_ringtone";
                     RegisterService DOMAIN "stop_ringtone"])
      end
  end.

(** xiaomi.py:74-77 *)
Definition stop_xiaomi {C} `{GatewayClient C} (hub : C) : C * list effect :=
  (stop_listen hub, [Log INFO "Shutting down Xiaomi Hub."]).

(** ** The two services *)

(** [call.data] of a service call.  The identifiers are ints, on which
    [int()] is the identity. *)
Record ServiceCall : Type := mkCall {
  ringtone_id : option Z;
  gw_sid : option string;
  ringtone_vol : option Z
}.

(** xiaomi.py:104-109 and 119-125, the loop with its [else]: the first
    gateway whose sid is [target] is written to and ends the loop; a
    loop that ends without a match logs the error. *)
Fixpoint write_first_match (gws : list (string * XiaomiGateway))
    (target : string) (ringtone : gmap string Z) : list effect :=
  match gws with
  | [] => [Log ERROR "Unknown gateway sid: %s was specified."]
  | (ip, gateway) :: rest =>
      if String.eqb (sid gateway) target then
        [WriteToHub ip (sid gateway) ringtone]
      else write_first_match rest target ringtone
  end.

(** xiaomi.py:83-109 *)
Definition play_ringtone_service {C} `{GatewayClient C} (hub : C)
    (call : ServiceCall) : list effect :=
  match ringtone_id call, gw_sid call with
  | Some rid, Some target =>
      let ring_id := rid in
      if existsb (Z.eqb ring_id) [9; 14 - 19] then
        [Log ERROR "Specified mid: %s is not defined in gateway."]
      else
        let ringtone : gmap string Z :=
          match ringtone_vol call with
          | None => {[ "mid" := ring_id ]}
          | Some ring_vol => <[ "vol" := ring_vol ]> {[ "mid" := ring_id ]}
          end in
        write_first_match (gateways hub) target ringtone
  | _, _ => [Log ERROR "Mandatory parameters is not specified."]
  end.

(** xiaomi.py:111-125 *)
Definition stop_ringtone_service {C} `{GatewayClient C} (hub : C)
    (call : ServiceCall) : list effect :=
  match gw_sid call with
  | None => [Log ERROR "Mandatory parameter (%s) is not specified."]
  | Some target =>
      write_first_match (gateways hub) target {[ "mid" := 10000 ]}
  end.


(** xiaomi.py:149-162, the three read-only properties of a device. *)
Definition name {St} (self : XiaomiDevice St) : string := _name self.

Definition should_poll {St} (self : XiaomiDevice St) : bool := false.

Definition device_state_attributes {St} (self : XiaomiDevice St)
  : gmap string value := _device_state_attributes self.
(** ** Vocabulary of the specification *)

(** A canonical identifier: no [:] and no upper-case letter. *)
Definition colon_free_lowercase (s : string) : bool :=
  str_forallb (fun a => negb (Ascii.eqb a colon) && negb (is_upper a)) s.

(** Two identifiers that differ only in their colons and in the case of
    their letters. *)
Inductive same_identifier : string -> string -> Prop :=
| same_nil : same_identifier EmptyString EmptyString
| same_colon_l s t :
    same_identifier s t -> same_identifier (String colon s) t
| same_colon_r s t :
    same_identifier s t -> same_identifier s (String colon t)
| same_char a b s t :
    ascii_lower a = ascii_lower b ->
    same_identifier s t -> same_identifier (String a s) (String b t).

(** [v] clamped to the interval from 2800 to 3300 millivolts. *)
Definition clamp_voltage (v : Z) : Z :=
  if v <? 2800 then 2800 else if 3300 <? v then 3300 else v.

(** [(clamped - 2800) / (3300 - 2800) * 100] as an exact rational. *)
Definition percent_exact (clamped : Z) : Q :=
  (inject_Z (clamped - 2800) / inject_Z (3300 - 2800) * inject_Z 100)%Q.

(** [n] is the integer nearest to [x], with no tie: every rule of
    rounding to nearest gives [n]. *)
Definition nearest_integer (x : Q) (n : Z) : Prop :=
  (Qabs (inject_Z n - x) < 1 # 2)%Q.

(** The writes of a trace, in order. *)
Definition writes (tr : list effect) : list effect := List.filter is_write tr.

(** [(ip, g)] is the first gateway of [gws], in iteration order, whose
    sid is [target]. *)
Definition first_match (gws : list (string * XiaomiGateway)) (target : string)
    (ip : string) (g : XiaomiGateway) : Prop :=
  exists pre post,
    gws = pre ++ (ip, g) :: post
    /\ sid g = target
    /\ forall p, In p pre -> sid (snd p) <> target.

Definition unknown_gateway : effect :=
  Log ERROR "Unknown gateway sid: %s was specified.".

Definition reserved_ringtone : effect :=
  Log ERROR "Specified mid: %s is not defined in gateway.".

(** What a service call may write, given the gateways [gws] it found
    and the trace [tr] it left: at most one write, and that one to the
    first gateway whose sid is the one the call names. *)
Definition writes_first_match_only (gws : list (string * XiaomiGateway))
    (call : ServiceCall) (tr : list effect) : Prop :=
  (length (writes tr) <= 1)%nat
  /\ forall ip s kwargs,
       In (WriteToHub ip s kwargs) tr ->
       tr = [WriteToHub ip s kwargs]
       /\ gw_sid call = Some s
       /\ exists g, first_match gws s ip g.

(** How many times a trace calls [discover_gateways()]. *)
Definition discover_calls (tr : list effect) : nat :=
  length (List.filter is_discover tr).

(** The hub client after [n] calls of [discover_gateways()]. *)
Definition after_calls {C} `{GatewayClient C} (n : nat) (hub : C) : C :=
  Nat.iter n discover_gateways hub.

(** A key the configuration loop lets pass: none, or 16 characters. *)
Definition key_accepted (g : GatewayConfig) : Prop :=
  conf_key g = None
  \/ exists key, conf_key g = Some key /\ String.length key = 16%nat.

Definition key_warning : effect :=
  Log WARNING "Gateway Key is not provided. Controlling gateway device will not be possible.".

Definition no_gateway : effect := Log ERROR "No gateway discovered".

(** xiaomi.py:180-181, the part of [battery_percent] after the clamp. *)
Definition round_percent (c : Z) : result Z :=
  py_round (float_mul_int (int_truediv (c - min_volt) (max_volt - min_volt)) 100).

Definition push_log : effect := Log DEBUG "PUSH >> %s: %s".

(** ** Fixtures: a scripted hub client and a sample device class *)

(** A hub client that follows a script: each [discover_gateways()]
    reveals the next batch of gateways, and none once the script is
    over. *)
Record ScriptedHub : Type := mkHub {
  hub_found : list (string * XiaomiGateway);
  hub_script : list (list (string * XiaomiGateway))
}.

Definition scripted_client (script : list (list (string * XiaomiGateway)))
  : GatewayClient ScriptedHub := {|
  PyXiaomiGateway _ _ := mkHub [] script;
  discover_gateways h :=
    match hub_script h with
    | [] => h
    | batch :: rest => mkHub (hub_found h ++ batch) rest
    end;
  gateways := hub_found;
  listen h := h;
  stop_listen h := h
|}.

(** A device class in the manner of the platforms: it keeps the last
    ['status'] reported and answers whether it differs from the one
    before. *)
Definition status_parse_data (self : XiaomiDevice (option string))
    (data : gmap string value)
  : result (bool * XiaomiDevice (option string)) :=
  match data !! "status" with
  | Some (VStr status) =>
      if bool_decide (variant_state self = Some status) then Ok (false, self)
      else
        Ok (true,
            mkDevice (_sid self) (_name self) (_device_state_attributes self)
              (Some status))
  | _ => Ok (false, self)
  end.

Definition StatusDevice : DeviceVariant (option string) :=
  {| parse_data := status_parse_data |}.

(** The base class used as it is. *)
Definition BaseDevice : DeviceVariant unit :=
  {| parse_data := base_parse_data |}.

Definition door_sensor : XiaomiDevice (option string) :=
  mkDevice "158d0001a2b3c4" "door_158d0001a2b3c4" ∅ (Some "close").

Definition hall : XiaomiGateway := mkGateway "f0b429aa0001".
Definition attic : XiaomiGateway := mkGateway "f0b429aa0002".

(** The same sensor once level 60 has been stored. *)
Definition charged_sensor : XiaomiDevice (option string) :=
  set_attributes door_sensor {[ ATTR_BATTERY_LEVEL := VInt 60 ]}.

(** A hub that has found two gateways, and one where a third entry
    carries the sid of the first. *)
Definition home : ScriptedHub :=
  mkHub [("192.168.1.10", hall); ("192.168.1.11", attic)] [].

Definition home_twice : ScriptedHub :=
  mkHub [("192.168.1.11", attic); ("192.168.1.10", hall); ("192.168.1.12", hall)] [].

(** A client that never finds a gateway, and one that finds the two
    gateways of the house one call after the other. *)
Definition silent_client : GatewayClient ScriptedHub := scripted_client [].

Definition two_step_client : GatewayClient ScriptedHub :=
  scripted_client [[("192.168.1.10", hall)]; [("192.168.1.11", attic)]].

(** Two gateways without keys; no gateway at all; one gateway with a
    key of five characters. *)
Definition two_gateways : Config :=
  mkConfig [mkGatewayConfig (Some "F0:B4:29:AA:00:01") None;
            mkGatewayConfig (Some "f0b429aa0002") None] "any" 3.

Definition no_gateways : Config := mkConfig [] "any" 3.

Definition short_key : Config :=
  mkConfig [mkGatewayConfig None None;
            mkGatewayConfig None (Some "abcde")] "any" 3.

(** ** Further vocabulary *)

Definition missing_parameters : effect :=
  Log ERROR "Mandatory parameters is not specified.".

Definition missing_gw_sid : effect :=
  Log ERROR "Mandatory parameter (%s) is not specified.".

Definition invalid_key : effect :=
  Log ERROR "Invalid key %s. Key must be 16 characters".

(** An entry of a trace that is an error log. *)
Definition is_error (e : effect) : bool :=
  match e with Log ERROR _ => true | _ => false end.

(** An entry made before the hub listens: a log or a discovery call. *)
Definition is_log_or_discover (e : effect) : bool :=
  match e with Log _ _ | DiscoverGateways => true | _ => false end.

(** xiaomi.py:45-46 on one configured gateway. *)
Definition normalised (g : GatewayConfig) : GatewayConfig :=
  mkGatewayConfig (normalize_sid <$> conf_sid g) (conf_key g).

(** The warnings the loop over [gws] logs: one for each entry without a
    key. *)
Definition key_warnings (gws : list GatewayConfig) : list effect :=
  flat_map (fun g => match conf_key g with None => [key_warning] | Some _ => [] end)
    gws.

(** xiaomi.py:71-132, what a successful [setup] does once gateways are
    found. *)
Definition setup_tail : list effect :=
  [Listen; Log INFO "Listening for broadcast"; ListenOnceStop;
   LoadPlatform "binary_sensor"; LoadPlatform "sensor"; LoadPlatform "switch";
   LoadPlatform "light"; LoadPlatform "cover";
   RegisterService "xiaomi" "play_ringtone";
   RegisterService "xiaomi" "stop_ringtone"].

(** ** Further fixtures *)

Definition cellar : XiaomiGateway := mkGateway "f0b429aa0003".

(** A client that finds one more gateway at each of three calls. *)
Definition three_step_client : GatewayClient ScriptedHub :=
  scripted_client
    [[("192.168.1.10", hall)]; [("192.168.1.11", attic)]; [("192.168.1.12", cellar)]].

(** One gateway without a key, and no discovery try allowed. *)
Definition no_retry : Config :=
  mkConfig [mkGatewayConfig (Some "F0:B4:29:AA:00:01") None] "any" 0.

(** * Identifier normalisation *)

Section Normalisation.

(** Builds a derivation of [same_identifier] between two literals. *)
Ltac same_identifier :=
  repeat first
    [ apply same_nil
    | apply same_char; [reflexivity|]
    | apply same_colon_l
    | apply same_colon_r ].

Lemma ascii_lower_idem a : ascii_lower (ascii_lower a) = ascii_lower a.
Proof. destruct a as [[] [] [] [] [] [] [] []]; reflexivity. Qed.

Lemma ascii_lower_not_upper a : is_upper (ascii_lower a) = false.
Proof. destruct a as [[] [] [] [] [] [] [] []]; reflexivity. Qed.

Lemma ascii_lower_fix a : is_upper a = false -> ascii_lower a = a.
Proof. unfold ascii_lower. now intros ->. Qed.

Lemma ascii_lower_colon a :
  Ascii.eqb (ascii_lower a) colon = Ascii.eqb a colon.
Proof. destruct a as [[] [] [] [] [] [] [] []]; reflexivity. Qed.

Lemma str_lower_idem s : str_lower (str_lower s) = str_lower s.
Proof.
  induction s as [|a s IH]; simpl; [reflexivity|].
  now rewrite ascii_lower_idem, IH.
Qed.

Lemma str_remove_lower s :
  str_remove colon (str_lower s) = str_lower (str_remove colon s).
Proof.
  induction s as [|a s IH]; simpl; [reflexivity|].
  rewrite ascii_lower_colon.
  destruct (Ascii.eqb a colon); simpl; now rewrite IH.
Qed.

Lemma str_remove_idem c s : str_remove c (str_remove c s) = str_remove c s.
Proof.
  induction s as [|a s IH]; simpl; [reflexivity|].
  destruct (Ascii.eqb a c) eqn:E; simpl; [assumption|].
  now rewrite E, IH.
Qed.

Lemma normalize_sid_idem s : normalize_sid (normalize_sid s) = normalize_sid s.
Proof.
  unfold normalize_sid.
  now rewrite str_remove_lower, str_remove_idem, str_lower_idem.
Qed.

Lemma normalize_sid_shape s : colon_free_lowercase (normalize_sid s) = true.
Proof.
  unfold colon_free_lowercase, normalize_sid.
  induction s as [|a s IH]; simpl; [reflexivity|].
  destruct (Ascii.eqb a colon) eqn:E; simpl; [assumption|].
  now rewrite ascii_lower_colon, E, ascii_lower_not_upper, IH.
Qed.

Lemma normalize_sid_fix s :
  colon_free_lowercase s = true -> normalize_sid s = s.
Proof.
  unfold colon_free_lowercase, normalize_sid.
  induction s as [|a s IH]; simpl; [reflexivity|].
  intros [[Hc Hu]%andb_prop Hs]%andb_prop.
  apply negb_true_iff in Hc, Hu.
  rewrite Hc. simpl. now rewrite (ascii_lower_fix _ Hu), IH.
Qed.

Lemma normalize_sid_cons a s :
  normalize_sid (String a s) =
  if Ascii.eqb a colon then normalize_sid s
  else String (ascii_lower a) (normalize_sid s).
Proof. unfold normalize_sid. simpl. now destruct (Ascii.eqb a colon). Qed.

Lemma same_identifier_normalize s t :
  same_identifier s t -> normalize_sid s = normalize_sid t.
Proof.
  induction 1 as [|s t _ IH|s t _ IH|a b s t Hab _ IH].
  - reflexivity.
  - now rewrite normalize_sid_cons, Ascii.eqb_refl.
  - now rewrite normalize_sid_cons, Ascii.eqb_refl.
  - rewrite !normalize_sid_cons, <- (ascii_lower_colon a), <- (ascii_lower_colon b).
    rewrite Hab, IH. reflexivity.
Qed.

Lemma normalize_sid_chars s :
  list_ascii_of_string (normalize_sid s) =
  map ascii_lower
    (List.filter (fun a => negb (Ascii.eqb a colon)) (list_ascii_of_string s)).
Proof.
  induction s as [|a s IH]; [reflexivity|].
  rewrite normalize_sid_cons. simpl.
  destruct (Ascii.eqb a colon); simpl; now rewrite IH.
Qed.

(** C7. Normalising an identifier removes every [:] and lowercases what
    is left; normalising twice is normalising once; and an identifier
    written with colons or capitals has the same canonical form as the
    colon-free lowercase identifier it stands for, which is that
    identifier itself. *)
Theorem normalize_sid_canonical (s : string) :
  list_ascii_of_string (normalize_sid s) =
    map ascii_lower
      (List.filter (fun a => negb (Ascii.eqb a colon)) (list_ascii_of_string s))
  /\ colon_free_lowercase (normalize_sid s) = true
  /\ normalize_sid (normalize_sid s) = normalize_sid s
  /\ (forall t, same_identifier s t -> normalize_sid s = normalize_sid t)
  /\ (forall t, colon_free_lowercase t = true -> same_identifier s t ->
                normalize_sid s = t).
Proof.
  split; [apply normalize_sid_chars|].
  split; [apply normalize_sid_shape|].
  split; [apply normalize_sid_idem|].
  split; [apply same_identifier_normalize|].
  intros t Ht Hst.
  rewrite (same_identifier_normalize _ _ Hst). now apply normalize_sid_fix.
Qed.

Lemma normalize_sid_canonical_witness :
  normalize_sid "34:CE:00:fa:5B:1c" = normalize_sid "34ce:00FA:5b1C"
  /\ normalize_sid "34:CE:00:fa:5B:1c" = "34ce00fa5b1c".
Proof.
  split.
  - apply (proj1 (proj2 (proj2 (proj2 (normalize_sid_canonical "34:CE:00:fa:5B:1c"))))).
    same_identifier.
  - apply (proj2 (proj2 (proj2 (proj2 (normalize_sid_canonical "34:CE:00:fa:5B:1c"))))).
    + reflexivity.
    + same_identifier.
Defined.

Example normalize_sid_mac :
  normalize_sid "34:CE:00:fa:5B:1c" = "34ce00fa5b1c"
  /\ normalize_sid "34ce00fa5b1c" = "34ce00fa5b1c".
Proof. split; reflexivity. Qed.

End Normalisation.
(** * Battery telemetry *)

Section Battery.

Lemma battery_percent_clamped v :
  battery_percent v = round_percent (Z.max (Z.min v max_volt) min_volt).
Proof. reflexivity. Qed.

Lemma clamp_voltage_min_max v :
  Z.max (Z.min v max_volt) min_volt = clamp_voltage v.
Proof.
  unfold clamp_voltage, max_volt, min_volt.
  destruct (Z.ltb_spec v 2800); [lia|].
  destruct (Z.ltb_spec 3300 v); lia.
Qed.

Lemma clamp_voltage_range v : 2800 <= clamp_voltage v <= 3300.
Proof.
  unfold clamp_voltage.
  destruct (Z.ltb_spec v 2800); [lia|].
  destruct (Z.ltb_spec 3300 v); lia.
Qed.

(** The float computation, run on each of the 501 clamped readings. *)
Lemma round_percent_table :
  forallb
    (fun k => match round_percent (2800 + Z.of_nat k) with
              | Ok n => n =? (Z.of_nat k + 2) / 5
              | Raise _ => false
              end)
    (seq 0 501) = true.
Proof. vm_compute. reflexivity. Qed.

Lemma round_percent_closed c :
  2800 <= c <= 3300 -> round_percent c = Ok ((c - 2800 + 2) / 5).
Proof.
  intros Hc.
  assert (Hin : In (Z.to_nat (c - 2800)) (seq 0 501)) by (apply in_seq; lia).
  apply (proj1 (forallb_forall _ _) round_percent_table) in Hin.
  cbv beta in Hin.
  rewrite Z2Nat.id in Hin by lia.
  replace (2800 + (c - 2800)) with c in Hin by lia.
  destruct (round_percent c) as [n|e]; [|discriminate Hin].
  f_equal. now apply Z.eqb_eq.
Qed.

Lemma nearest_integer_percent c :
  nearest_integer (percent_exact c) ((c - 2800 + 2) / 5).
Proof.
  unfold nearest_integer, percent_exact.
  set (k := c - 2800).
  pose proof (Z.div_mod (k + 2) 5 ltac:(lia)) as Hdm.
  pose proof (Z.mod_pos_bound (k + 2) 5 ltac:(lia)) as Hm.
  set (n := (k + 2) / 5) in *.
  apply Qabs_Qlt_condition.
  unfold Qlt, Qminus, Qplus, Qopp, Qmult, Qdiv, Qinv, inject_Z. simpl.
  change (Z.pos (1 * (1 * 500 * 1))) with 500.
  change (Z.pos (1 * 500 * 1)) with 500.
  lia.
Qed.

Lemma battery_percent_closed v :
  battery_percent v = Ok ((clamp_voltage v - 2800 + 2) / 5).
Proof.
  rewrite battery_percent_clamped, clamp_voltage_min_max.
  apply round_percent_closed, clamp_voltage_range.
Qed.

Lemma parse_voltage_int {St} (self : XiaomiDevice St) data v :
  data !! "voltage" = Some (VInt v) ->
  parse_voltage self data =
  Ok (true,
      set_attributes self
        (<[ATTR_BATTERY_LEVEL := VInt ((clamp_voltage v - 2800 + 2) / 5)]>
           (_device_state_attributes self))).
Proof.
  intros Hv. unfold parse_voltage. rewrite Hv, battery_percent_closed.
  reflexivity.
Qed.

Lemma set_attributes_same {St} (self : XiaomiDevice St) :
  set_attributes self (_device_state_attributes self) = self.
Proof. now destruct self. Qed.

(** C4. For an integer reading [v], [parse_voltage] stores under the
    battery-level key the integer nearest to
    [(clamped - 2800) / 500 * 100], where [clamped] is [v] clamped to
    2800..3300: 0 at and below 2800, 100 at and above 3300, 50 at
    3050. *)
Theorem parse_voltage_stores_rounded_percent {St} (self : XiaomiDevice St)
    (data : gmap string value) (v : Z) :
  data !! "voltage" = Some (VInt v) ->
  exists n : Z,
    parse_voltage self data =
      Ok (true,
          set_attributes self
            (<[ATTR_BATTERY_LEVEL := VInt n]> (_device_state_attributes self)))
    /\ nearest_integer (percent_exact (clamp_voltage v)) n
    /\ (v <= 2800 -> n = 0)
    /\ (3300 <= v -> n = 100)
    /\ (v = 3050 -> n = 50).
Proof.
  intros Hv. exists ((clamp_voltage v - 2800 + 2) / 5).
  split; [now apply parse_voltage_int|].
  split; [apply nearest_integer_percent|].
  unfold clamp_voltage.
  repeat split; intros H.
  - destruct (Z.ltb_spec v 2800); [reflexivity|].
    replace v with 2800 by lia. reflexivity.
  - destruct (Z.ltb_spec v 2800); [lia|].
    destruct (Z.ltb_spec 3300 v); [reflexivity|].
    replace v with 3300 by lia. reflexivity.
  - subst v. reflexivity.
Qed.

(** C9. After [parse_voltage] on a payload with an integer voltage, the
    battery-level attribute holds an integer from 0 to 100. *)
Theorem parse_voltage_level_bounds {St} (self : XiaomiDevice St)
    (data : gmap string value) (v : Z) :
  data !! "voltage" = Some (VInt v) ->
  exists (self' : XiaomiDevice St) (n : Z),
    parse_voltage self data = Ok (true, self')
    /\ _device_state_attributes self' !! ATTR_BATTERY_LEVEL = Some (VInt n)
    /\ 0 <= n <= 100.
Proof.
  intros Hv.
  exists (set_attributes self
            (<[ATTR_BATTERY_LEVEL := VInt ((clamp_voltage v - 2800 + 2) / 5)]>
               (_device_state_attributes self))),
         ((clamp_voltage v - 2800 + 2) / 5).
  split; [now apply parse_voltage_int|].
  split; [apply lookup_insert_eq|].
  pose proof (clamp_voltage_range v).
  split.
  - apply Z.div_pos; lia.
  - apply Z.lt_succ_r, Z.div_lt_upper_bound; lia.
Qed.

(** C5. Without a voltage field [parse_voltage] answers [False] and
    leaves the instance as it was; with one it answers [True], also when
    the level it stores is the one already stored and the instance is
    therefore unchanged. *)
Theorem parse_voltage_change_signal {St} (self : XiaomiDevice St)
    (data : gmap string value) :
  (data !! "voltage" = None -> parse_voltage self data = Ok (false, self))
  /\ (forall v, data !! "voltage" = Some (VInt v) ->
        exists (self' : XiaomiDevice St) (n : Z),
          battery_percent v = Ok n
          /\ parse_voltage self data = Ok (true, self')
          /\ (_device_state_attributes self !! ATTR_BATTERY_LEVEL = Some (VInt n) ->
              self' = self)).
Proof.
  split.
  - intros Hv. unfold parse_voltage. now rewrite Hv.
  - intros v Hv.
    exists (set_attributes self
              (<[ATTR_BATTERY_LEVEL := VInt ((clamp_voltage v - 2800 + 2) / 5)]>
                 (_device_state_attributes self))),
           ((clamp_voltage v - 2800 + 2) / 5).
    split; [apply battery_percent_closed|].
    split; [now apply parse_voltage_int|].
    intros Hsame. rewrite (insert_id _ _ _ Hsame).
    apply set_attributes_same.
Qed.

End Battery.

Section BatteryInstances.

Lemma parse_voltage_stores_rounded_percent_witness :
  exists n : Z,
    parse_voltage door_sensor {[ "voltage" := VInt 3100 ]} =
      Ok (true,
          set_attributes door_sensor
            (<[ATTR_BATTERY_LEVEL := VInt n]> (_device_state_attributes door_sensor)))
    /\ nearest_integer (percent_exact (clamp_voltage 3100)) n
    /\ (3100 <= 2800 -> n = 0)
    /\ (3300 <= 3100 -> n = 100)
    /\ (3100 = 3050 -> n = 50).
Proof.
  apply (parse_voltage_stores_rounded_percent door_sensor
           {[ "voltage" := VInt 3100 ]} 3100).
  reflexivity.
Defined.

Lemma parse_voltage_level_bounds_witness :
  exists (self' : XiaomiDevice (option string)) (n : Z),
    parse_voltage door_sensor {[ "voltage" := VInt 2950 ]} = Ok (true, self')
    /\ _device_state_attributes self' !! ATTR_BATTERY_LEVEL = Some (VInt n)
    /\ 0 <= n <= 100.
Proof.
  apply (parse_voltage_level_bounds door_sensor {[ "voltage" := VInt 2950 ]} 2950).
  reflexivity.
Defined.

Lemma parse_voltage_change_signal_witness :
  parse_voltage charged_sensor {[ "status" := VStr "open" ]} =
    Ok (false, charged_sensor)
  /\ exists (self' : XiaomiDevice (option string)) (n : Z),
       battery_percent 3100 = Ok n
       /\ parse_voltage charged_sensor {[ "voltage" := VInt 3100 ]} = Ok (true, self')
       /\ (_device_state_attributes charged_sensor !! ATTR_BATTERY_LEVEL =
             Some (VInt n) -> self' = charged_sensor).
Proof.
  split.
  - apply (parse_voltage_change_signal charged_sensor {[ "status" := VStr "open" ]}).
    reflexivity.
  - apply (parse_voltage_change_signal charged_sensor {[ "voltage" := VInt 3100 ]}).
    reflexivity.
Defined.

(** The level stored is the level computed, and the answer is still
    [True]. *)
Example parse_voltage_same_level :
  parse_voltage charged_sensor {[ "voltage" := VInt 3100 ]} =
  Ok (true, charged_sensor).
Proof. vm_compute. reflexivity. Qed.

Example parse_voltage_text_reading :
  parse_voltage door_sensor {[ "voltage" := VStr "3100" ]} = Raise TypeError.
Proof. reflexivity. Qed.

Example battery_percent_samples :
  map battery_percent [2800; 3300; 3050; 2500; 3600; 3100; 2807; 2808] =
  map Ok [0; 100; 50; 0; 100; 60; 1; 2].
Proof. vm_compute. reflexivity. Qed.

End BatteryInstances.
(** * Push events *)

Section PushData.

Context {St : Type} `{DeviceVariant St}.

(** When [parse_data] answers [True], [or] has its value: [parse_voltage]
    is not run, and the instance is as [parse_data] left it. *)
Lemma push_data_changed (self self1 : XiaomiDevice St) data :
  parse_data self data = Ok (true, self1) ->
  push_data self data = Ok (self1, [push_log; CallParseData; ScheduleUpdateHaState]).
Proof. intros Hp. unfold push_data. rewrite Hp. reflexivity. Qed.

(** When [parse_data] answers [False], [parse_voltage] runs next and its
    answer decides the update. *)
Lemma push_data_unchanged (self self1 self2 : XiaomiDevice St) data changed :
  parse_data self data = Ok (false, self1) ->
  parse_voltage self1 data = Ok (changed, self2) ->
  push_data self data =
  Ok (self2,
      [push_log; CallParseData; CallParseVoltage]
        ++ (if changed then [ScheduleUpdateHaState] else [])).
Proof. intros Hp Hv. unfold push_data. rewrite Hp. simpl. rewrite Hv. reflexivity. Qed.

(** An update is scheduled exactly when one of the calls made answered
    [True]. *)
Lemma push_data_schedules (self self' : XiaomiDevice St) data tr :
  push_data self data = Ok (self', tr) ->
  In ScheduleUpdateHaState tr <->
  (exists self1, parse_data self data = Ok (true, self1))
  \/ (exists self1, parse_data self data = Ok (false, self1)
                    /\ parse_voltage self1 data = Ok (true, self')).
Proof.
  unfold push_data.
  destruct (parse_data self data) as [[[] self1]|e] eqn:Hp; simpl.
  - intros [= <- <-]. split; [eauto|]. intros _. simpl. auto.
  - destruct (parse_voltage self1 data) as [[c self2]|e] eqn:Hv; simpl.
    + intros [= <- <-]. split.
      * destruct c; simpl; [intros _; right; eauto|].
        intros [|[|[|[]]]]; discriminate.
      * intros [[s [=]]|[s [[= <-] Hv']]].
        rewrite Hv in Hv'. injection Hv' as ->. simpl. auto.
    + discriminate.
  - discriminate.
Qed.

End PushData.

Section PushDataInstances.

#[local] Existing Instance StatusDevice.

(** C2. A push that reports both a new status and a voltage: the status
    is taken, an update is scheduled, and [parse_voltage] is not called,
    so the reading never reaches the battery level; the initialiser,
    given the same report, does store it. *)
Theorem push_data_skips_voltage :
  push_data door_sensor {[ "status" := VStr "open"; "voltage" := VInt 3100 ]} =
    Ok (mkDevice "158d0001a2b3c4" "door_158d0001a2b3c4" ∅ (Some "open"),
        [Log DEBUG "PUSH >> %s: %s"; CallParseData; ScheduleUpdateHaState])
  /\ XiaomiDevice_init (Some "close")
       (mkReport "158d0001a2b3c4"
          {[ "status" := VStr "open"; "voltage" := VInt 3100 ]})
       "door" ∅ =
     (let self :=
        mkDevice "158d0001a2b3c4" "door_158d0001a2b3c4"
          {[ ATTR_BATTERY_LEVEL := VInt 60 ]} (Some "open") in
      Ok (self, {[ "158d0001a2b3c4" := [self] ]})).
Proof. split; vm_compute; reflexivity. Qed.

(** With the status unchanged the same reading is stored. *)
Example push_data_heartbeat :
  push_data door_sensor {[ "status" := VStr "close"; "voltage" := VInt 3100 ]} =
  Ok (set_attributes door_sensor {[ ATTR_BATTERY_LEVEL := VInt 60 ]},
      [Log DEBUG "PUSH >> %s: %s"; CallParseData; CallParseVoltage;
       ScheduleUpdateHaState]).
Proof. vm_compute. reflexivity. Qed.

(** The base class has no [parse_data] of its own. *)
Example push_data_base_class :
  @push_data unit BaseDevice (mkDevice "158d0001a2b3c4" "door" ∅ tt)
    {[ "voltage" := VInt 3100 ]} = Raise NotImplementedError.
Proof. reflexivity. Qed.

End PushDataInstances.
(** * The ringtone services *)

Section Services.

Context {C : Type} `{GatewayClient C}.

Lemma write_first_match_found gws target ringtone ip g :
  first_match gws target ip g ->
  write_first_match gws target ringtone = [WriteToHub ip target ringtone].
Proof.
  intros (pre & post & -> & Hg & Hpre).
  induction pre as [|[ip' g'] pre IH]; simpl.
  - rewrite Hg, String.eqb_refl. reflexivity.
  - destruct (String.eqb_spec (sid g') target) as [Heq|_].
    + exfalso. apply (Hpre (ip', g')); [now left|exact Heq].
    + apply IH. intros p Hp. apply Hpre. now right.
Qed.

Lemma write_first_match_unknown gws target ringtone :
  (forall p, In p gws -> sid (snd p) <> target) ->
  write_first_match gws target ringtone = [unknown_gateway].
Proof.
  induction gws as [|[ip g] gws IH]; simpl; intros Hno; [reflexivity|].
  destruct (String.eqb_spec (sid g) target) as [Heq|_].
  - exfalso. apply (Hno (ip, g)); [now left|exact Heq].
  - apply IH. intros p Hp. apply Hno. now right.
Qed.

(** Either some gateway is the first match, or none matches. *)
Lemma first_match_dec gws target :
  (exists ip g, first_match gws target ip g)
  \/ (forall p, In p gws -> sid (snd p) <> target).
Proof.
  induction gws as [|[ip g] gws IH].
  - right. intros p [].
  - destruct (String.eqb_spec (sid g) target) as [Heq|Hne].
    + left. exists ip, g, [], gws. repeat split; [exact Heq|intros p []].
    + destruct IH as [(ip' & g' & pre & post & -> & Hg & Hpre)|Hno].
      * left. exists ip', g', ((ip, g) :: pre), post.
        repeat split; [exact Hg|].
        intros p [<-|Hp]; [exact Hne|now apply Hpre].
      * right. intros p [<-|Hp]; [exact Hne|now apply Hno].
Qed.

Lemma write_first_match_cases gws target ringtone :
  (exists ip g, first_match gws target ip g
                /\ write_first_match gws target ringtone =
                   [WriteToHub ip target ringtone])
  \/ ((forall p, In p gws -> sid (snd p) <> target)
      /\ write_first_match gws target ringtone = [unknown_gateway]).
Proof.
  destruct (first_match_dec gws target) as [(ip & g & Hfm)|Hno].
  - left. exists ip, g. split; [exact Hfm|].
    now apply write_first_match_found with g.
  - right. split; [exact Hno|]. now apply write_first_match_unknown.
Qed.

(** The literal test of xiaomi.py:91. *)
Lemma reserved_test rid :
  existsb (Z.eqb rid) [9; 14 - 19] = true <-> rid = 9 \/ rid = -5.
Proof.
  simpl. rewrite !orb_true_iff, !Z.eqb_eq. intuition discriminate.
Qed.

(** The trace of [play_ringtone_service] is one of four. *)
Lemma play_ringtone_cases hub call :
  play_ringtone_service hub call = [Log ERROR "Mandatory parameters is not specified."]
  \/ play_ringtone_service hub call = [reserved_ringtone]
  \/ exists rid target ringtone,
       ringtone_id call = Some rid /\ gw_sid call = Some target
       /\ play_ringtone_service hub call =
          write_first_match (gateways hub) target ringtone.
Proof.
  unfold play_ringtone_service.
  destruct (ringtone_id call) as [rid|]; [|now left].
  destruct (gw_sid call) as [target|]; [|now left].
  destruct (existsb _ _); [right; now left|].
  right; right. eauto 6.
Qed.

Lemma play_ringtone_nine hub call :
  ringtone_id call = Some 9 -> gw_sid call <> None ->
  play_ringtone_service hub call = [reserved_ringtone].
Proof.
  intros Hr Hs. unfold play_ringtone_service. rewrite Hr.
  destruct (gw_sid call); [reflexivity|contradiction].
Qed.

(** C8. [stop_ringtone] with a sid: when a gateway has that sid, the one
    write [{mid: 10000}] goes to the first such gateway and nothing else
    happens; when none has, the unknown-gateway error is logged and
    nothing is written.  [play_ringtone] with a sid that no gateway has
    writes nothing either. *)
Theorem stop_ringtone_resolves (hub : C) (call : ServiceCall) (target : string) :
  gw_sid call = Some target ->
  ((exists p, In p (gateways hub) /\ sid (snd p) = target) ->
     exists ip g,
       first_match (gateways hub) target ip g
       /\ stop_ringtone_service hub call =
          [WriteToHub ip target {[ "mid" := 10000 ]}])
  /\ ((forall p, In p (gateways hub) -> sid (snd p) <> target) ->
        stop_ringtone_service hub call = [unknown_gateway]
        /\ forall call', gw_sid call' = Some target ->
             writes (play_ringtone_service hub call') = []).
Proof.
  intros Hs. unfold stop_ringtone_service. rewrite Hs. split.
  - intros (p & Hp & Hsid).
    destruct (write_first_match_cases (gateways hub) target {[ "mid" := 10000 ]})
      as [(ip & g & Hfm & Hw)|[Hno _]].
    + exists ip, g. now split.
    + exfalso. now apply (Hno p).
  - intros Hno. split; [now apply write_first_match_unknown|].
    intros call' Hs'.
    destruct (play_ringtone_cases hub call')
      as [->|[->|(rid & t & r & _ & Ht & ->)]]; [reflexivity..|].
    rewrite Hs' in Ht. injection Ht as <-.
    now rewrite write_first_match_unknown.
Qed.

(** C10. A call of either service writes at most once; what it writes
    goes to the first gateway, in iteration order, whose sid is the one
    asked for, so a gateway with another sid, or a later one with the
    same sid, is not written to. *)
Theorem ringtone_services_write_once (hub : C) (call : ServiceCall) :
  writes_first_match_only (gateways hub) call (play_ringtone_service hub call)
  /\ writes_first_match_only (gateways hub) call (stop_ringtone_service hub call).
Proof.
  assert (Hloop : forall target ringtone,
             let tr := write_first_match (gateways hub) target ringtone in
             (length (writes tr) <= 1)%nat
             /\ forall ip s kwargs,
                  In (WriteToHub ip s kwargs) tr ->
                  tr = [WriteToHub ip s kwargs] /\ s = target
                  /\ exists g, first_match (gateways hub) s ip g).
  { intros target ringtone tr. subst tr.
    destruct (write_first_match_cases (gateways hub) target ringtone)
      as [(ip & g & Hfm & ->)|[_ ->]]; (split; [simpl; lia|]).
    - intros ip' s kw [[= <- <- <-]|[]]. eauto.
    - intros ip' s kw [[=]|[]]. }
  unfold writes_first_match_only. split.
  - destruct (play_ringtone_cases hub call)
      as [->|[->|(rid & t & r & _ & Ht & ->)]].
    + split; [simpl; lia|]. intros ip s kw [[=]|[]].
    + split; [simpl; lia|]. intros ip s kw [[=]|[]].
    + destruct (Hloop t r) as [Hlen Hw]. split; [exact Hlen|].
      intros ip s kw Hin. destruct (Hw ip s kw Hin) as (? & -> & ?).
      repeat split; assumption.
  - unfold stop_ringtone_service.
    destruct (gw_sid call) as [t|].
    + destruct (Hloop t {[ "mid" := 10000 ]}) as [Hlen Hw]. split; [exact Hlen|].
      intros ip s kw Hin. destruct (Hw ip s kw Hin) as (? & -> & ?).
      repeat split; assumption.
    + split; [simpl; lia|]. intros ip s kw [[=]|[]].
Qed.

End Services.

Section ServicesInstances.

#[local] Existing Instance silent_client.

Lemma stop_ringtone_resolves_witness :
  (exists ip g,
      first_match (gateways home) "f0b429aa0002" ip g
      /\ stop_ringtone_service home (mkCall None (Some "f0b429aa0002") None) =
         [WriteToHub ip "f0b429aa0002" {[ "mid" := 10000 ]}])
  /\ (stop_ringtone_service home (mkCall None (Some "f0b429aa0003") None) =
        [unknown_gateway]
      /\ forall call', gw_sid call' = Some "f0b429aa0003" ->
           writes (play_ringtone_service home call') = []).
Proof.
  split.
  - apply (stop_ringtone_resolves home (mkCall None (Some "f0b429aa0002") None)
             "f0b429aa0002"); [reflexivity|].
    exists ("192.168.1.11", attic). split; [right; left|]; reflexivity.
  - apply (stop_ringtone_resolves home (mkCall None (Some "f0b429aa0003") None)
             "f0b429aa0003"); [reflexivity|].
    intros p [<-|[<-|[]]]; discriminate.
Defined.

Lemma ringtone_services_write_once_witness :
  writes_first_match_only (gateways home_twice)
    (mkCall (Some 3) (Some "f0b429aa0001") None)
    (play_ringtone_service home_twice (mkCall (Some 3) (Some "f0b429aa0001") None))
  /\ writes_first_match_only (gateways home_twice)
       (mkCall (Some 3) (Some "f0b429aa0001") None)
       (stop_ringtone_service home_twice (mkCall (Some 3) (Some "f0b429aa0001") None)).
Proof.
  exact (ringtone_services_write_once home_twice
           (mkCall (Some 3) (Some "f0b429aa0001") None)).
Defined.

Example stop_ringtone_traces :
  stop_ringtone_service home (mkCall None (Some "f0b429aa0002") None) =
    [WriteToHub "192.168.1.11" "f0b429aa0002" {[ "mid" := 10000 ]}]
  /\ stop_ringtone_service home (mkCall (Some 3) (Some "f0b429aa0002") (Some 50)) =
    [WriteToHub "192.168.1.11" "f0b429aa0002" {[ "mid" := 10000 ]}]
  /\ stop_ringtone_service home (mkCall None (Some "f0b429aa0003") None) =
    [unknown_gateway]
  /\ play_ringtone_service home (mkCall (Some 3) (Some "f0b429aa0003") None) =
    [unknown_gateway]
  /\ stop_ringtone_service home_twice (mkCall None (Some "f0b429aa0001") None) =
    [WriteToHub "192.168.1.10" "f0b429aa0001" {[ "mid" := 10000 ]}]
  /\ play_ringtone_service home (mkCall (Some 3) (Some "f0b429aa0001") (Some 50)) =
    [WriteToHub "192.168.1.10" "f0b429aa0001" {[ "mid" := 3; "vol" := 50 ]}].
Proof. repeat split; vm_compute; reflexivity. Qed.

(** C1. Of the identifiers 9, 14, ..., 19 the test [ring_id in [9, 14-19]]
    stops 9 only (and -5, the value of [14-19]): a call with 14, ..., 19
    and the sid of a gateway is written to that gateway. *)
Theorem play_ringtone_reserved_ids :
  map (fun rid =>
         play_ringtone_service home (mkCall (Some rid) (Some "f0b429aa0001") None))
      [14; 15; 16; 17; 18; 19] =
  map (fun rid => [WriteToHub "192.168.1.10" "f0b429aa0001" {[ "mid" := rid ]}])
      [14; 15; 16; 17; 18; 19]
  /\ play_ringtone_service home (mkCall (Some 9) (Some "f0b429aa0001") None) =
     [reserved_ringtone]
  /\ play_ringtone_service home (mkCall (Some (-5)) (Some "f0b429aa0001") None) =
     [reserved_ringtone].
Proof. repeat split; vm_compute; reflexivity. Qed.

End ServicesInstances.
(** * Setup: key validation and discovery *)

Section Setup.

Context {C : Type} `{GatewayClient C}.

Lemma check_gateways_rejects gws g key :
  In g gws -> conf_key g = Some key -> String.length key <> 16%nat ->
  snd (check_gateways gws) = None.
Proof.
  intros Hin Hk Hlen.
  induction gws as [|g' gws IH]; [destruct Hin|].
  simpl. destruct (conf_key g') as [key'|] eqn:Hk'.
  - destruct (String.length key' =? 16)%nat eqn:E; [|reflexivity].
    destruct Hin as [->|Hin].
    + rewrite Hk in Hk'. injection Hk' as <-.
      apply Nat.eqb_eq in E. contradiction.
    + specialize (IH Hin). destruct (check_gateways gws) as [log r].
      simpl in *. now rewrite IH.
  - destruct Hin as [->|Hin]; [congruence|].
    specialize (IH Hin). destruct (check_gateways gws) as [log r].
    simpl in *. now rewrite IH.
Qed.

Lemma check_gateways_accepts gws :
  Forall key_accepted gws ->
  exists log gws',
    check_gateways gws = (log, Some gws')
    /\ Forall (fun e => e = key_warning) log
    /\ length gws' = length gws.
Proof.
  induction 1 as [|g gws Hg _ (log & gws' & IH & Hlog & Hlen)]; simpl.
  - exists [], []. repeat split. constructor.
  - rewrite IH. destruct Hg as [->|(key & -> & Hkey)].
    + eexists _, _. split; [reflexivity|]. split.
      * constructor; [reflexivity|assumption].
      * simpl. now rewrite Hlen.
    + rewrite Hkey. simpl.
      eexists _, _. split; [reflexivity|]. split; [assumption|].
      simpl. now rewrite Hlen.
Qed.

Lemma check_gateways_length gws log gws' :
  check_gateways gws = (log, Some gws') -> length gws' = length gws.
Proof.
  revert log gws'.
  induction gws as [|g gws IH]; simpl; intros log gws'.
  - now intros [= <- <-].
  - destruct (check_gateways gws) as [log0 [r|]];
      destruct (conf_key g) as [key|];
      [destruct (String.length key =? 16)%nat| |
       destruct (String.length key =? 16)%nat|];
      simpl; intros [= <- <-] || intros [=]; simpl;
      try now rewrite (IH _ _ eq_refl).
Qed.

Lemma check_gateways_no_discover gws :
  discover_calls (fst (check_gateways gws)) = 0%nat.
Proof.
  induction gws as [|g gws IH]; simpl; [reflexivity|].
  destruct (check_gateways gws) as [log r]. simpl in IH.
  destruct (conf_key g) as [key|]; [|exact IH].
  destruct (String.length key =? 16)%nat; [exact IH|reflexivity].
Qed.

Lemma discover_calls_app tr1 tr2 :
  discover_calls (tr1 ++ tr2) = (discover_calls tr1 + discover_calls tr2)%nat.
Proof. unfold discover_calls. now rewrite List.filter_app, List.length_app. Qed.

Lemma after_calls_S n (hub : C) :
  after_calls (S n) hub = after_calls n (discover_gateways hub).
Proof. unfold after_calls. apply Nat.iter_succ_r. Qed.

(** The loop of xiaomi.py:62-66, by the number [n] of calls it makes. *)
Lemma discovery_loop_spec retry expected (hub : C) :
  let n := discover_calls (snd (discovery_loop retry expected hub)) in
  fst (discovery_loop retry expected hub) = after_calls n hub
  /\ (n <= retry)%nat
  /\ (forall j, (1 <= j < n)%nat ->
                (length (gateways (after_calls j hub)) < expected)%nat)
  /\ ((n < retry)%nat ->
      (expected <= length (gateways (after_calls n hub)))%nat).
Proof.
  revert hub. induction retry as [|retry IH]; intros hub; cbn [discovery_loop].
  - split; [reflexivity|]. cbn. split; [lia|]. split; intros; lia.
  - destruct (Nat.leb_spec expected (length (gateways (discover_gateways hub))))
      as [Hge|Hlt].
    + split; [reflexivity|]. split; [cbn; lia|].
      split; [cbn; intros; lia|]. intros _. exact Hge.
    + specialize (IH (discover_gateways hub)).
      destruct (discovery_loop retry expected (discover_gateways hub))
        as [hub' tr'].
      cbn [fst snd] in *. cbv zeta in *.
      destruct IH as (Hhub & Hle & Hbelow & Hstop).
      change (discover_calls
                ([Log INFO "Discovering Xiaomi Gateways (Try %s)"; DiscoverGateways]
                   ++ tr'))
        with (S (discover_calls tr')).
      rewrite after_calls_S.
      split; [exact Hhub|]. split; [lia|]. split.
      * intros j Hj. destruct j as [|[|j]]; [lia|exact Hlt|].
        rewrite after_calls_S. apply Hbelow. lia.
      * intros Hn. apply Hstop. lia.
Qed.

(** [setup] once the configuration loop has let the gateways pass. *)
Lemma setup_after_check config log gws :
  check_gateways (conf_gateways config) = (log, Some gws) ->
  let loop :=
    discovery_loop (conf_discovery_retry config) (length gws)
      (PyXiaomiGateway gws (conf_interface config)) in
  discover_calls (setup_trace (setup config)) = discover_calls (snd loop)
  /\ (gateways (fst loop) = [] ->
        setup_ok (setup config) = false
        /\ last (setup_trace (setup config)) = Some no_gateway)
  /\ (gateways (fst loop) <> [] ->
        setup_ok (setup config) = true
        /\ setup_hub (setup config) = Some (listen (fst loop))).
Proof.
  intros Hcheck loop. subst loop. unfold setup. rewrite Hcheck.
  pose proof (check_gateways_no_discover (conf_gateways config)) as Hlog.
  rewrite Hcheck in Hlog. cbn [fst] in Hlog.
  destruct (discovery_loop _ _ _) as [hub tr]. cbn [fst snd].
  destruct (gateways hub) as [|gw found]; cbn [setup_ok setup_trace setup_hub].
  - split.
    + rewrite !discover_calls_app, Hlog.
      change (discover_calls (Log INFO "Expecting %s gateways" :: tr))
        with (discover_calls tr).
      cbn. lia.
    + split; [|congruence]. intros _. split; [reflexivity|].
      apply last_snoc.
  - split.
    + rewrite !discover_calls_app, Hlog.
      change (discover_calls (Log INFO "Expecting %s gateways" :: tr))
        with (discover_calls tr).
      cbn. lia.
    + split; [discriminate|]. intros _. split; reflexivity.
Qed.

(** C6. A configured gateway whose key is present and not 16 characters
    long makes [setup] return [False], before any hub client exists.
    When every key is absent or 16 characters long the loop over the
    gateways ends without failure, logging nothing but the warning of a
    missing key, and [setup] goes on to discovery. *)
Theorem setup_key_length (config : Config) :
  (forall g key,
      In g (conf_gateways config) -> conf_key g = Some key ->
      String.length key <> 16%nat ->
      setup_ok (setup config) = false /\ setup_hub (setup config) = None)
  /\ (Forall key_accepted (conf_gateways config) ->
      exists log gws,
        check_gateways (conf_gateways config) = (log, Some gws)
        /\ Forall (fun e => e = key_warning) log
        /\ let found :=
             gateways
               (fst (discovery_loop (conf_discovery_retry config) (length gws)
                       (PyXiaomiGateway gws (conf_interface config)))) in
           (found <> [] -> setup_ok (setup config) = true)
           /\ (found = [] -> setup_ok (setup config) = false)).
Proof.
  split.
  - intros g key Hin Hk Hlen.
    pose proof (check_gateways_rejects _ g key Hin Hk Hlen) as Hrej.
    unfold setup. destruct (check_gateways (conf_gateways config)) as [log r].
    simpl in Hrej. subst r. split; reflexivity.
  - intros Hall.
    destruct (check_gateways_accepts _ Hall) as (log & gws & Hcheck & Hlog & _).
    exists log, gws. split; [exact Hcheck|]. split; [exact Hlog|].
    destruct (setup_after_check config log gws Hcheck) as (_ & Hnone & Hsome).
    split; intros Hf.
    + now apply Hsome.
    + now apply Hnone.
Qed.

(** C3, as the loop has it. [setup] calls [discover_gateways()] [n] times
    with [n] at most the retry count; no call before the last left as
    many gateways as are configured, and when [n] is below the retry
    count the last call did.  With no gateway found then, [setup]
    returns [False] after logging that none was discovered; with one or
    more, also fewer than configured, it returns [True].  With a client
    that never finds a gateway and at least one gateway configured,
    [n] is the retry count. *)
Theorem setup_discovery (config : Config) (log : list effect)
    (gws : list GatewayConfig) :
  check_gateways (conf_gateways config) = (log, Some gws) ->
  let hub := PyXiaomiGateway gws (conf_interface config) in
  let retries := conf_discovery_retry config in
  let expected := length (conf_gateways config) in
  let n := discover_calls (setup_trace (setup config)) in
  let found := gateways (after_calls n hub) in
  (n <= retries)%nat
  /\ (forall j, (1 <= j < n)%nat ->
        (length (gateways (after_calls j hub)) < expected)%nat)
  /\ ((n < retries)%nat -> (expected <= length found)%nat)
  /\ (found = [] ->
        setup_ok (setup config) = false
        /\ last (setup_trace (setup config)) = Some no_gateway)
  /\ (found <> [] -> setup_ok (setup config) = true)
  /\ ((forall j, gateways (after_calls j hub) = []) ->
        (0 < expected)%nat -> n = retries).
Proof.
  intros Hcheck hub retries expected n found.
  destruct (setup_after_check config log gws Hcheck) as (Hn & Hnone & Hsome).
  pose proof (discovery_loop_spec retries (length gws) hub) as Hloop.
  cbv zeta in Hloop. fold hub retries in Hn, Hnone, Hsome.
  rewrite (check_gateways_length _ _ _ Hcheck) in *.
  fold expected in Hloop, Hn, Hnone, Hsome.
  fold n in Hn. rewrite <- Hn in Hloop.
  destruct Hloop as (Hhub & Hle & Hbelow & Hstop).
  rewrite Hhub in Hnone, Hsome. fold found in Hnone, Hsome, Hstop.
  split; [exact Hle|]. split; [exact Hbelow|]. split; [exact Hstop|].
  split; [exact Hnone|]. split; [intros Hf; now apply Hsome|].
  intros Hnever Hpos.
  destruct (Nat.eq_dec n retries) as [Heq|Hne]; [exact Heq|].
  assert (Hlt : (n < retries)%nat) by lia.
  specialize (Hstop Hlt). subst found. rewrite Hnever in Hstop.
  simpl in Hstop. lia.
Qed.

End Setup.

Section SetupInstances.

Lemma setup_discovery_witness :
  let config := two_gateways in
  let hub := @PyXiaomiGateway _ two_step_client
               [mkGatewayConfig (Some "f0b429aa0001") None;
                mkGatewayConfig (Some "f0b429aa0002") None] "any" in
  let n := discover_calls (setup_trace (@setup _ two_step_client config)) in
  let found := @gateways _ two_step_client (@after_calls _ two_step_client n hub) in
  (n <= 3)%nat
  /\ (forall j, (1 <= j < n)%nat ->
        (length (@gateways _ two_step_client (@after_calls _ two_step_client j hub))
         < 2)%nat)
  /\ ((n < 3)%nat -> (2 <= length found)%nat)
  /\ (found = [] ->
        setup_ok (@setup _ two_step_client config) = false
        /\ last (setup_trace (@setup _ two_step_client config)) = Some no_gateway)
  /\ (found <> [] -> setup_ok (@setup _ two_step_client config) = true)
  /\ ((forall j, @gateways _ two_step_client (@after_calls _ two_step_client j hub) = []) ->
        (0 < 2)%nat -> n = 3%nat).
Proof.
  apply (@setup_discovery _ two_step_client two_gateways
           [key_warning; key_warning]
           [mkGatewayConfig (Some "f0b429aa0001") None;
            mkGatewayConfig (Some "f0b429aa0002") None]).
  reflexivity.
Defined.

(** Two gateways configured and found in two calls: the third try is
    not made, and [listen()] is called once. *)
Example setup_two_gateways :
  @setup _ two_step_client two_gateways =
  mkSetup true (Some (mkHub [("192.168.1.10", hall); ("192.168.1.11", attic)] []))
    [key_warning; key_warning;
     Log INFO "Expecting %s gateways";
     Log INFO "Discovering Xiaomi Gateways (Try %s)"; DiscoverGateways;
     Log INFO "Discovering Xiaomi Gateways (Try %s)"; DiscoverGateways;
     Listen; Log INFO "Listening for broadcast"; ListenOnceStop;
     LoadPlatform "binary_sensor"; LoadPlatform "sensor"; LoadPlatform "switch";
     LoadPlatform "light"; LoadPlatform "cover";
     RegisterService "xiaomi" "play_ringtone";
     RegisterService "xiaomi" "stop_ringtone"].
Proof. reflexivity. Qed.

(** One gateway found of the two configured: three calls, and success. *)
Example setup_partial_discovery :
  let r := @setup _ (scripted_client [[("192.168.1.10", hall)]]) two_gateways in
  setup_ok r = true /\ discover_calls (setup_trace r) = 3%nat.
Proof. split; reflexivity. Qed.

(** None found of the two configured: three calls, and failure. *)
Example setup_silent_hub :
  let r := @setup _ silent_client two_gateways in
  setup_ok r = false /\ discover_calls (setup_trace r) = 3%nat
  /\ last (setup_trace r) = Some no_gateway.
Proof. repeat split; reflexivity. Qed.

(** C3 as stated, at a configuration without gateways: the client never
    finds a gateway and three tries are allowed, yet one call is made,
    since after it the count 0 is already the count 0 expected. *)
Lemma setup_silent_hub_no_gateways :
  (forall j, @gateways _ silent_client
               (@after_calls _ silent_client j
                  (@PyXiaomiGateway _ silent_client [] "any")) = [])
  /\ conf_discovery_retry no_gateways = 3%nat
  /\ discover_calls (setup_trace (@setup _ silent_client no_gateways)) = 1%nat
  /\ setup_ok (@setup _ silent_client no_gateways) = false.
Proof.
  split; [|repeat split; reflexivity].
  intros j. induction j as [|j IH]; [reflexivity|].
  rewrite (@after_calls_S _ silent_client). exact IH.
Qed.

Lemma setup_key_length_witness :
  (setup_ok (@setup _ silent_client short_key) = false
   /\ setup_hub (@setup _ silent_client short_key) = None)
  /\ exists log gws,
       check_gateways (conf_gateways two_gateways) = (log, Some gws)
       /\ Forall (fun e => e = key_warning) log
       /\ let found :=
            @gateways _ two_step_client
              (fst (@discovery_loop _ two_step_client
                      (conf_discovery_retry two_gateways) (length gws)
                      (@PyXiaomiGateway _ two_step_client gws
                         (conf_interface two_gateways)))) in
          (found <> [] -> setup_ok (@setup _ two_step_client two_gateways) = true)
          /\ (found = [] -> setup_ok (@setup _ two_step_client two_gateways) = false).
Proof.
  split.
  - apply (proj1 (@setup_key_length _ silent_client short_key)
             (mkGatewayConfig None (Some "abcde")) "abcde").
    + simpl. right. left. reflexivity.
    + reflexivity.
    + simpl. lia.
  - apply (proj2 (@setup_key_length _ two_step_client two_gateways)).
    repeat constructor.
Defined.

(** The entry without a key is warned about and passed; the key of five
    characters ends [setup] before any discovery. *)
Example setup_short_key :
  @setup _ two_step_client short_key =
  mkSetup false None
    [key_warning; Log ERROR "Invalid key %s. Key must be 16 characters"].
Proof. reflexivity. Qed.

End SetupInstances.

(** * Further properties of the device class *)

Section DeviceMore.

Context {St : Type} `{DeviceVariant St}.

Lemma set_attributes_twice (self : XiaomiDevice St) a b :
  set_attributes (set_attributes self a) b = set_attributes self b.
Proof. reflexivity. Qed.

Lemma clamp_voltage_mono v1 v2 :
  v1 <= v2 -> clamp_voltage v1 <= clamp_voltage v2.
Proof.
  intros Hle. unfold clamp_voltage.
  destruct (Z.ltb_spec v1 2800), (Z.ltb_spec v2 2800); try lia;
    destruct (Z.ltb_spec 3300 v1), (Z.ltb_spec 3300 v2); lia.
Qed.

(** [parse_voltage] touches the battery-level attribute and nothing
    else: identifier, name, the state of the concrete class and every
    other attribute are as before, whatever the payload. *)
Theorem parse_voltage_frame (self self' : XiaomiDevice St)
    (data : gmap string value) (changed : bool) :
  parse_voltage self data = Ok (changed, self') ->
  _sid self' = _sid self
  /\ name self' = name self
  /\ variant_state self' = variant_state self
  /\ forall k, k <> ATTR_BATTERY_LEVEL ->
       device_state_attributes self' !! k = device_state_attributes self !! k.
Proof.
  unfold parse_voltage.
  destruct (data !! "voltage") as [[v|s]|]; [| discriminate |].
  - rewrite battery_percent_closed. intros [= <- <-].
    repeat split. intros k Hk. unfold device_state_attributes. simpl.
    now apply lookup_insert_ne.
  - intros [= <- <-]. repeat split.
Qed.

(** A higher reading never gives a lower battery level. *)
Theorem battery_percent_monotone (v1 v2 n1 n2 : Z) :
  v1 <= v2 ->
  battery_percent v1 = Ok n1 -> battery_percent v2 = Ok n2 ->
  n1 <= n2.
Proof.
  intros Hle. rewrite !battery_percent_closed. intros [= <-] [= <-].
  apply Z.div_le_mono; [lia|].
  pose proof (clamp_voltage_mono v1 v2 Hle). lia.
Qed.

(** Parsing the same payload a second time changes nothing more and
    gives the same answer. *)
Theorem parse_voltage_idempotent (self self' : XiaomiDevice St)
    (data : gmap string value) (changed : bool) :
  parse_voltage self data = Ok (changed, self') ->
  parse_voltage self' data = Ok (changed, self').
Proof.
  unfold parse_voltage.
  destruct (data !! "voltage") as [[v|s]|]; [| discriminate |].
  - rewrite battery_percent_closed. intros [= <- <-]. simpl.
    now rewrite set_attributes_twice, insert_insert_eq.
  - now intros [= <- <-].
Qed.

(** An exception of [parse_data] leaves [push_data] as it is, and so
    does the [TypeError] of [parse_voltage] on a reading that is text,
    which is reached only when [parse_data] answered [False]. *)
Theorem push_data_raises (self : XiaomiDevice St) (data : gmap string value) :
  (forall e, parse_data self data = Raise e -> push_data self data = Raise e)
  /\ (forall self1 s,
        parse_data self data = Ok (false, self1) ->
        data !! "voltage" = Some (VStr s) ->
        push_data self data = Raise TypeError)
  /\ (forall self1 s,
        parse_data self data = Ok (true, self1) ->
        data !! "voltage" = Some (VStr s) ->
        push_data self data =
        Ok (self1, [push_log; CallParseData; ScheduleUpdateHaState])).
Proof.
  unfold push_data. repeat split.
  - intros e ->. reflexivity.
  - intros self1 s -> Hv. simpl. unfold parse_voltage. now rewrite Hv.
  - intros self1 s -> _. reflexivity.
Qed.

(** A push in which [parse_data] finds nothing new and which carries no
    voltage schedules no update; the instance is as [parse_data] left
    it. *)
Theorem push_data_nothing_new (self self1 : XiaomiDevice St)
    (data : gmap string value) :
  parse_data self data = Ok (false, self1) ->
  data !! "voltage" = None ->
  push_data self data = Ok (self1, [push_log; CallParseData; CallParseVoltage]).
Proof.
  intros Hp Hv. unfold push_data. rewrite Hp. simpl.
  unfold parse_voltage. rewrite Hv. reflexivity.
Qed.

(** After the initialiser the attribute snapshot holds the battery
    level of the report and nothing else: it is empty when the report
    has no voltage, and what [parse_data] did to it is discarded. *)
Theorem XiaomiDevice_init_attributes (st : St) (device : DeviceReport)
    (label : string) (ha_devices : gmap string (list (XiaomiDevice St)))
    (self : XiaomiDevice St) (ha_devices' : gmap string (list (XiaomiDevice St))) :
  XiaomiDevice_init st device label ha_devices = Ok (self, ha_devices') ->
  (report_data device !! "voltage" = None -> device_state_attributes self = ∅)
  /\ (forall v, report_data device !! "voltage" = Some (VInt v) ->
        exists n, battery_percent v = Ok n
                  /\ device_state_attributes self = {[ ATTR_BATTERY_LEVEL := VInt n ]}).
Proof.
  unfold XiaomiDevice_init.
  destruct (parse_data _ (report_data device)) as [[c1 self1]|e]; [|discriminate].
  cbn [mbind result_bind snd].
  destruct (report_data device !! "voltage") as [[v|s]|] eqn:Hv.
  - rewrite (parse_voltage_int _ _ _ Hv). cbn [mbind result_bind snd].
    intros [= <- _].
    split; [discriminate|]. intros v' [= <-].
    exists ((clamp_voltage v - 2800 + 2) / 5).
    split; [apply battery_percent_closed|].
    unfold device_state_attributes. simpl. apply insert_empty.
  - unfold parse_voltage. rewrite Hv. discriminate.
  - unfold parse_voltage. rewrite Hv. cbn [mbind result_bind snd].
    intros [= <- _]. split; [reflexivity|]. discriminate.
Qed.

(** The initialiser registers the new device at the end of the hub's
    list for its identifier and leaves the lists of the other
    identifiers alone. *)
Theorem XiaomiDevice_init_registers (st : St) (device : DeviceReport)
    (label : string) (ha_devices : gmap string (list (XiaomiDevice St)))
    (self : XiaomiDevice St) (ha_devices' : gmap string (list (XiaomiDevice St))) :
  XiaomiDevice_init st device label ha_devices = Ok (self, ha_devices') ->
  ha_devices' !! _sid self = Some (default [] (ha_devices !! _sid self) ++ [self])
  /\ forall k, k <> _sid self -> ha_devices' !! k = ha_devices !! k.
Proof.
  unfold XiaomiDevice_init.
  destruct (parse_data _ (report_data device)) as [[c1 self1]|e]; [|discriminate].
  simpl.
  destruct (parse_voltage _ (report_data device)) as [[c2 self2]|e]; [|discriminate].
  simpl. intros [= <- <-]. split.
  - apply lookup_insert_eq.
  - intros k Hk. apply lookup_insert_ne. congruence.
Qed.

(** When [parse_data] raises, as that of the base class does, or the
    reading is text, the initialiser raises the same exception and the
    device is not registered. *)
Theorem XiaomiDevice_init_raises (st : St) (device : DeviceReport)
    (label : string) (ha_devices : gmap string (list (XiaomiDevice St))) :
  (forall e,
      parse_data (mkDevice (report_sid device) (label ++ "_" ++ report_sid device)%string
                    ∅ st) (report_data device) = Raise e ->
      XiaomiDevice_init st device label ha_devices = Raise e)
  /\ (forall c self1 s,
        parse_data (mkDevice (report_sid device) (label ++ "_" ++ report_sid device)%string
                      ∅ st) (report_data device) = Ok (c, self1) ->
        report_data device !! "voltage" = Some (VStr s) ->
        XiaomiDevice_init st device label ha_devices = Raise TypeError).
Proof.
  unfold XiaomiDevice_init. split.
  - intros e ->. reflexivity.
  - intros c self1 s -> Hv. simpl. unfold parse_voltage. now rewrite Hv.
Qed.

End DeviceMore.

Section DeviceMoreInstances.

#[local] Existing Instance StatusDevice.

Lemma parse_voltage_frame_witness :
  _sid (set_attributes charged_sensor
          (<[ATTR_BATTERY_LEVEL := VInt 20]> (_device_state_attributes charged_sensor)))
    = _sid charged_sensor
  /\ name (set_attributes charged_sensor
            (<[ATTR_BATTERY_LEVEL := VInt 20]> (_device_state_attributes charged_sensor)))
     = name charged_sensor
  /\ variant_state
       (set_attributes charged_sensor
          (<[ATTR_BATTERY_LEVEL := VInt 20]> (_device_state_attributes charged_sensor)))
     = variant_state charged_sensor
  /\ forall k, k <> ATTR_BATTERY_LEVEL ->
       device_state_attributes
         (set_attributes charged_sensor
            (<[ATTR_BATTERY_LEVEL := VInt 20]> (_device_state_attributes charged_sensor)))
         !! k
       = device_state_attributes charged_sensor !! k.
Proof.
  apply (parse_voltage_frame charged_sensor _ {[ "voltage" := VInt 2900 ]} true).
  vm_compute. reflexivity.
Defined.

Lemma battery_percent_monotone_witness : 20 <= 60.
Proof.
  apply (battery_percent_monotone 2900 3100 20 60).
  - lia.
  - vm_compute. reflexivity.
  - vm_compute. reflexivity.
Defined.

Lemma parse_voltage_idempotent_witness :
  parse_voltage
    (set_attributes door_sensor {[ ATTR_BATTERY_LEVEL := VInt 20 ]})
    {[ "voltage" := VInt 2900 ]} =
  Ok (true, set_attributes door_sensor {[ ATTR_BATTERY_LEVEL := VInt 20 ]}).
Proof.
  apply (parse_voltage_idempotent door_sensor _ {[ "voltage" := VInt 2900 ]} true).
  vm_compute. reflexivity.
Defined.

Lemma push_data_schedules_witness :
  In ScheduleUpdateHaState
    [push_log; CallParseData; CallParseVoltage; ScheduleUpdateHaState] <->
  (exists self1,
      parse_data door_sensor {[ "voltage" := VInt 3100 ]} = Ok (true, self1))
  \/ (exists self1,
        parse_data door_sensor {[ "voltage" := VInt 3100 ]} = Ok (false, self1)
        /\ parse_voltage self1 {[ "voltage" := VInt 3100 ]} =
           Ok (true, charged_sensor)).
Proof.
  apply (push_data_schedules door_sensor charged_sensor
           {[ "voltage" := VInt 3100 ]}).
  vm_compute. reflexivity.
Defined.

Lemma push_data_raises_witness :
  push_data door_sensor {[ "status" := VStr "close"; "voltage" := VStr "3100" ]} =
    Raise TypeError
  /\ push_data door_sensor {[ "status" := VStr "open"; "voltage" := VStr "3100" ]} =
     Ok (mkDevice "158d0001a2b3c4" "door_158d0001a2b3c4" ∅ (Some "open"),
         [push_log; CallParseData; ScheduleUpdateHaState])
  /\ @push_data unit BaseDevice (mkDevice "158d0001a2b3c4" "door" ∅ tt)
       {[ "voltage" := VInt 3100 ]} = Raise NotImplementedError.
Proof.
  split; [|split].
  - apply (proj1 (proj2 (push_data_raises door_sensor
             {[ "status" := VStr "close"; "voltage" := VStr "3100" ]}))
             door_sensor "3100"); reflexivity.
  - apply (proj2 (proj2 (push_data_raises door_sensor
             {[ "status" := VStr "open"; "voltage" := VStr "3100" ]}))
             _ "3100"); reflexivity.
  - apply (proj1 (@push_data_raises unit BaseDevice
             (mkDevice "158d0001a2b3c4" "door" ∅ tt) {[ "voltage" := VInt 3100 ]})).
    reflexivity.
Defined.

Lemma push_data_nothing_new_witness :
  push_data charged_sensor {[ "status" := VStr "close" ]} =
  Ok (charged_sensor, [push_log; CallParseData; CallParseVoltage]).
Proof.
  apply (push_data_nothing_new charged_sensor charged_sensor
           {[ "status" := VStr "close" ]}); reflexivity.
Defined.

Lemma XiaomiDevice_init_attributes_witness :
  (report_data (mkReport "158d0001a2b3c4" {[ "voltage" := VInt 3100 ]}) !! "voltage"
     = None ->
   device_state_attributes charged_sensor = ∅)
  /\ (forall v,
        report_data (mkReport "158d0001a2b3c4" {[ "voltage" := VInt 3100 ]})
          !! "voltage" = Some (VInt v) ->
        exists n, battery_percent v = Ok n
                  /\ device_state_attributes charged_sensor =
                     {[ ATTR_BATTERY_LEVEL := VInt n ]}).
Proof.
  apply (XiaomiDevice_init_attributes (Some "close")
           (mkReport "158d0001a2b3c4" {[ "voltage" := VInt 3100 ]}) "door" ∅
           charged_sensor {[ "158d0001a2b3c4" := [charged_sensor] ]}).
  vm_compute. reflexivity.
Defined.

Lemma XiaomiDevice_init_registers_witness :
  ({[ "158d0001a2b3c4" := [door_sensor; charged_sensor] ]}
     : gmap string (list (XiaomiDevice (option string))))
    !! _sid charged_sensor =
    Some (default [] (({[ "158d0001a2b3c4" := [door_sensor] ]}
                         : gmap string (list (XiaomiDevice (option string))))
                        !! _sid charged_sensor) ++ [charged_sensor])
  /\ forall k, k <> _sid charged_sensor ->
       ({[ "158d0001a2b3c4" := [door_sensor; charged_sensor] ]}
          : gmap string (list (XiaomiDevice (option string)))) !! k =
       ({[ "158d0001a2b3c4" := [door_sensor] ]}
          : gmap string (list (XiaomiDevice (option string)))) !! k.
Proof.
  apply (XiaomiDevice_init_registers (Some "close")
           (mkReport "158d0001a2b3c4" {[ "voltage" := VInt 3100 ]}) "door"
           {[ "158d0001a2b3c4" := [door_sensor] ]}
           charged_sensor
           {[ "158d0001a2b3c4" := [door_sensor; charged_sensor] ]}).
  vm_compute. reflexivity.
Defined.

Lemma XiaomiDevice_init_raises_witness :
  @XiaomiDevice_init unit BaseDevice tt
    (mkReport "158d0001a2b3c4" {[ "voltage" := VInt 3100 ]}) "door" ∅ =
    Raise NotImplementedError
  /\ XiaomiDevice_init (Some "close")
       (mkReport "158d0001a2b3c4" {[ "voltage" := VStr "3100" ]}) "door" ∅ =
     Raise TypeError.
Proof.
  split.
  - apply (proj1 (@XiaomiDevice_init_raises unit BaseDevice tt
             (mkReport "158d0001a2b3c4" {[ "voltage" := VInt 3100 ]}) "door" ∅)).
    reflexivity.
  - apply (proj2 (XiaomiDevice_init_raises (Some "close")
             (mkReport "158d0001a2b3c4" {[ "voltage" := VStr "3100" ]}) "door" ∅)
             false
             (mkDevice "158d0001a2b3c4" "door_158d0001a2b3c4" ∅ (Some "close"))
             "3100"); reflexivity.
Defined.

End DeviceMoreInstances.

(** * Further properties of the ringtone services *)

Section ServicesMore.

Context {C : Type} `{GatewayClient C}.

(** A call that lacks a mandatory parameter only logs that: [play]
    needs both the ringtone and the sid, and says so before it looks at
    the ringtone; [stop] needs the sid. *)
Theorem ringtone_missing_parameter (hub : C) (call : ServiceCall) :
  (ringtone_id call = None \/ gw_sid call = None ->
     play_ringtone_service hub call = [missing_parameters])
  /\ (gw_sid call = None ->
        stop_ringtone_service hub call = [missing_gw_sid]).
Proof.
  split.
  - unfold play_ringtone_service. intros [-> | ->]; [reflexivity|].
    now destruct (ringtone_id call).
  - unfold stop_ringtone_service. now intros ->.
Qed.

(** With both parameters, [play] answers with the reserved-ringtone
    error exactly for the identifiers 9 and -5. *)
Theorem play_ringtone_reserved_iff (hub : C) (call : ServiceCall)
    (rid : Z) (target : string) :
  ringtone_id call = Some rid -> gw_sid call = Some target ->
  play_ringtone_service hub call = [reserved_ringtone] <-> rid = 9 \/ rid = -5.
Proof.
  intros Hr Hs. unfold play_ringtone_service. rewrite Hr, Hs.
  rewrite <- reserved_test.
  destruct (existsb _ _); [tauto|].
  split; [|discriminate]. intros Hw. exfalso.
  destruct (write_first_match_cases (gateways hub) target
              (match ringtone_vol call with
               | Some ring_vol => <["vol" := ring_vol]> {["mid" := rid]}
               | None => {["mid" := rid]}
               end)) as [(ip & g & _ & Heq)|[_ Heq]];
    rewrite Heq in Hw; discriminate.
Qed.

(** The payload [play] writes: [mid] is the ringtone, [vol] is the
    volume when the call has one and is absent otherwise, and there is
    no other field; it goes to the first gateway with the sid. *)
Theorem play_ringtone_payload (hub : C) (call : ServiceCall)
    (rid : Z) (target ip : string) (g : XiaomiGateway) :
  ringtone_id call = Some rid -> gw_sid call = Some target ->
  rid <> 9 -> rid <> -5 ->
  first_match (gateways hub) target ip g ->
  exists kwargs : gmap string Z,
    play_ringtone_service hub call = [WriteToHub ip target kwargs]
    /\ kwargs !! "mid" = Some rid
    /\ kwargs !! "vol" = ringtone_vol call
    /\ forall k, k <> "mid" -> k <> "vol" -> kwargs !! k = None.
Proof.
  intros Hr Hs H9 H5 Hfm. unfold play_ringtone_service. rewrite Hr, Hs.
  destruct (existsb (Z.eqb rid) [9; 14 - 19]) eqn:E.
  { apply reserved_test in E. lia. }
  eexists. split; [now apply write_first_match_found with g|].
  destruct (ringtone_vol call) as [vol|].
  - split; [now rewrite lookup_insert_ne, lookup_singleton_eq|].
    split; [apply lookup_insert_eq|].
    intros k Hm Hv. rewrite lookup_insert_ne by congruence.
    apply lookup_singleton_ne. congruence.
  - split; [apply lookup_singleton_eq|].
    split; [now apply lookup_singleton_ne|].
    intros k Hm _. apply lookup_singleton_ne. congruence.
Qed.


Lemma play_write_first_match (hub : C) (call : ServiceCall) ip s kwargs :
  play_ringtone_service hub call = [WriteToHub ip s kwargs] ->
  gw_sid call = Some s /\ exists g, first_match (gateways hub) s ip g.
Proof.
  destruct (play_ringtone_cases hub call)
    as [->|[->|(rid & t & r & _ & Ht & ->)]]; [discriminate..|].
  destruct (write_first_match_cases (gateways hub) t r)
    as [(ip' & g & Hfm & ->)|[_ ->]]; [|discriminate].
  intros [= <- <- _]. split; [exact Ht|]. now exists g.
Qed.

(** A ringtone that [play] has started on a gateway is stopped on that
    gateway by [stop] with the same sid. *)
Theorem play_then_stop_same_gateway (hub : C) (call call' : ServiceCall)
    (ip s : string) (kwargs : gmap string Z) :
  play_ringtone_service hub call = [WriteToHub ip s kwargs] ->
  gw_sid call' = gw_sid call ->
  stop_ringtone_service hub call' = [WriteToHub ip s {[ "mid" := 10000 ]}].
Proof.
  intros Hplay Hsid.
  destruct (play_write_first_match hub call ip s kwargs Hplay)
    as (Hs & g & Hfm).
  unfold stop_ringtone_service. rewrite Hsid, Hs.
  now apply write_first_match_found with g.
Qed.

End ServicesMore.

Section ServicesMoreInstances.

#[local] Existing Instance silent_client.

Lemma ringtone_missing_parameter_witness :
  play_ringtone_service home (mkCall (Some 9) None (Some 50)) = [missing_parameters]
  /\ play_ringtone_service home (mkCall None (Some "f0b429aa0001") None) =
     [missing_parameters]
  /\ stop_ringtone_service home (mkCall (Some 3) None None) = [missing_gw_sid].
Proof.
  split; [|split].
  - apply (proj1 (ringtone_missing_parameter home (mkCall (Some 9) None (Some 50)))).
    right. reflexivity.
  - apply (proj1 (ringtone_missing_parameter home
                    (mkCall None (Some "f0b429aa0001") None))).
    left. reflexivity.
  - apply (proj2 (ringtone_missing_parameter home (mkCall (Some 3) None None))).
    reflexivity.
Defined.

Lemma play_ringtone_reserved_iff_witness :
  play_ringtone_service home (mkCall (Some (-5)) (Some "f0b429aa0001") None) =
    [reserved_ringtone]
  <-> -5 = 9 \/ -5 = -5.
Proof.
  apply (play_ringtone_reserved_iff home
           (mkCall (Some (-5)) (Some "f0b429aa0001") None) (-5) "f0b429aa0001");
    reflexivity.
Defined.

Lemma play_ringtone_payload_witness :
  exists kwargs : gmap string Z,
    play_ringtone_service home (mkCall (Some 14) (Some "f0b429aa0002") (Some 30)) =
      [WriteToHub "192.168.1.11" "f0b429aa0002" kwargs]
    /\ kwargs !! "mid" = Some 14
    /\ kwargs !! "vol" = Some 30
    /\ forall k, k <> "mid" -> k <> "vol" -> kwargs !! k = None.
Proof.
  apply (play_ringtone_payload home
           (mkCall (Some 14) (Some "f0b429aa0002") (Some 30))
           14 "f0b429aa0002" "192.168.1.11" attic);
    [reflexivity | reflexivity | lia | lia |].
  exists [("192.168.1.10", hall)], [].
  split; [reflexivity|]. split; [reflexivity|].
  intros p [<-|[]]. discriminate.
Defined.

Lemma play_then_stop_same_gateway_witness :
  stop_ringtone_service home_twice (mkCall None (Some "f0b429aa0001") None) =
  [WriteToHub "192.168.1.10" "f0b429aa0001" {[ "mid" := 10000 ]}].
Proof.
  apply (play_then_stop_same_gateway home_twice
           (mkCall (Some 3) (Some "f0b429aa0001") (Some 50))
           (mkCall None (Some "f0b429aa0001") None)
           "192.168.1.10" "f0b429aa0001" {[ "mid" := 3; "vol" := 50 ]}).
  - vm_compute. reflexivity.
  - reflexivity.
Defined.

End ServicesMoreInstances.

(** * Further properties of setup *)

Section SetupMore.

Context {C : Type} `{GatewayClient C}.

Lemma normalised_idem g : normalised (normalised g) = normalised g.
Proof.
  unfold normalised. simpl. f_equal.
  destruct (conf_sid g); simpl; [|reflexivity].
  now rewrite normalize_sid_idem.
Qed.

Lemma key_accepted_normalised g : key_accepted g -> key_accepted (normalised g).
Proof. intros Hg. exact Hg. Qed.

Lemma key_warnings_normalised gws :
  key_warnings (map normalised gws) = key_warnings gws.
Proof. induction gws as [|g gws IH]; simpl; [reflexivity|]. now rewrite IH. Qed.

Lemma check_gateways_passes gws :
  Forall key_accepted gws ->
  check_gateways gws = (key_warnings gws, Some (map normalised gws)).
Proof.
  induction 1 as [|g gws Hg _ IH]; simpl; [reflexivity|].
  rewrite IH. unfold normalised.
  destruct Hg as [Hk|(key & Hk & Hkey)]; rewrite Hk; [reflexivity|].
  rewrite Hkey. reflexivity.
Qed.

Lemma check_gateways_passed gws log gws' :
  check_gateways gws = (log, Some gws') -> Forall key_accepted gws.
Proof.
  revert log gws'. induction gws as [|g gws IH]; intros log gws'; [constructor|].
  simpl. destruct (check_gateways gws) as [log0 r].
  destruct (conf_key g) as [key|] eqn:Hk.
  - destruct (Nat.eqb_spec (String.length key) 16) as [Hlen|_]; [|discriminate].
    destruct r as [gws0|]; [|discriminate]. intros _.
    constructor; [right; eauto|]. now apply (IH log0 gws0).
  - destruct r as [gws0|]; [|discriminate]. intros _.
    constructor; [now left|]. now apply (IH log0 gws0).
Qed.

Lemma check_gateways_stops pre g post key :
  Forall key_accepted pre -> conf_key g = Some key ->
  String.length key <> 16%nat ->
  check_gateways (pre ++ g :: post) = (key_warnings pre ++ [invalid_key], None).
Proof.
  intros Hpre Hk Hlen.
  induction Hpre as [|g' pre Hg' _ IH]; simpl.
  - rewrite Hk. apply Nat.eqb_neq in Hlen. now rewrite Hlen.
  - rewrite IH.
    destruct Hg' as [Hk'|(key' & Hk' & Hkey')]; rewrite Hk'; [reflexivity|].
    rewrite Hkey'. reflexivity.
Qed.

Lemma check_gateways_logs gws :
  forallb is_log_or_discover (fst (check_gateways gws)) = true.
Proof.
  induction gws as [|g gws IH]; simpl; [reflexivity|].
  destruct (check_gateways gws) as [log r]. simpl in IH.
  destruct (conf_key g) as [key|]; [|exact IH].
  destruct (String.length key =? 16)%nat; [exact IH|reflexivity].
Qed.

Lemma discovery_loop_logs retry expected (hub : C) :
  forallb is_log_or_discover (snd (discovery_loop retry expected hub)) = true.
Proof.
  revert hub. induction retry as [|retry IH]; intros hub; simpl; [reflexivity|].
  destruct (expected <=? length (gateways (discover_gateways hub)))%nat;
    [reflexivity|].
  specialize (IH (discover_gateways hub)).
  destruct (discovery_loop retry expected (discover_gateways hub)) as [hub' tr'].
  exact IH.
Qed.

(** When every key is absent or 16 characters long, the loop over the
    configured gateways warns once for each entry without a key and
    hands on the entries in their order, keys untouched, each sid
    without colons and in lower case. *)
Theorem check_gateways_normalises (gws : list GatewayConfig) :
  Forall key_accepted gws ->
  exists gws',
    check_gateways gws = (key_warnings gws, Some gws')
    /\ map conf_key gws' = map conf_key gws
    /\ map conf_sid gws' = map (fun g => normalize_sid <$> conf_sid g) gws
    /\ Forall (fun g' => forall s, conf_sid g' = Some s ->
                                   colon_free_lowercase s = true) gws'.
Proof.
  intros Hall. exists (map normalised gws).
  split; [now apply check_gateways_passes|].
  rewrite !map_map. split; [reflexivity|]. split; [reflexivity|].
  apply List.Forall_forall. intros g' [g [<- _]]%in_map_iff s. simpl.
  destruct (conf_sid g) as [s0|]; [|discriminate].
  intros [= <-]. apply normalize_sid_shape.
Qed.

(** The gateways the loop hands on pass it again unchanged, with the
    same warnings. *)
Theorem check_gateways_idempotent (gws gws' : list GatewayConfig)
    (log : list effect) :
  check_gateways gws = (log, Some gws') ->
  check_gateways gws' = (log, Some gws').
Proof.
  intros Hcheck.
  pose proof (check_gateways_passed _ _ _ Hcheck) as Hall.
  rewrite (check_gateways_passes _ Hall) in Hcheck.
  injection Hcheck as <- <-.
  rewrite check_gateways_passes.
  - rewrite key_warnings_normalised, map_map.
    do 2 f_equal. apply map_ext. intros g. apply normalised_idem.
  - apply List.Forall_forall. intros g' [g [<- Hg]]%in_map_iff.
    apply key_accepted_normalised. revert g Hg. now apply List.Forall_forall.
Qed.

(** [setup] stops at the first key that is present and not 16
    characters long: it has warned about the entries without a key
    before it, logs the invalid key and returns [False]; the entries
    after it are not looked at, no hub client is made and no discovery
    is tried. *)
Theorem setup_first_bad_key (config : Config) (pre post : list GatewayConfig)
    (g : GatewayConfig) (key : string) :
  conf_gateways config = pre ++ g :: post ->
  Forall key_accepted pre ->
  conf_key g = Some key -> String.length key <> 16%nat ->
  setup config = mkSetup false None (key_warnings pre ++ [invalid_key]).
Proof.
  intros Hgws Hpre Hk Hlen. unfold setup.
  now rewrite Hgws, (check_gateways_stops pre g post key Hpre Hk Hlen).
Qed.

(** The trace of [setup], whatever it returns, begins with logs and
    discovery calls only. When it returns [True] these are followed by
    exactly: [listen()], its log, the stop hook, the five platforms in
    their order and the two services; the hub kept is listening and has
    a gateway. When it returns [False] nothing follows: the hub never
    listens, no platform is loaded, no service is registered, and the
    last entry is an error log. *)
Theorem setup_trace_shape (config : Config) :
  (setup_ok (setup config) = true ->
     exists pre hub,
       setup_trace (setup config) = pre ++ setup_tail
       /\ forallb is_log_or_discover pre = true
       /\ setup_hub (setup config) = Some (listen hub)
       /\ gateways hub <> [])
  /\ (setup_ok (setup config) = false ->
        forallb is_log_or_discover (setup_trace (setup config)) = true
        /\ exists pre e,
             setup_trace (setup config) = pre ++ [e] /\ is_error e = true).
Proof.
  unfold setup.
  pose proof (check_gateways_logs (conf_gateways config)) as Hlog.
  destruct (check_gateways (conf_gateways config)) as [log [gws|]] eqn:Hcheck;
    cbn [fst] in Hlog.
  - pose proof (discovery_loop_logs (conf_discovery_retry config) (length gws)
                  (PyXiaomiGateway gws (conf_interface config))) as Hloop.
    destruct (discovery_loop _ _ _) as [hub tr]. cbn [snd] in Hloop.
    assert (Hpre : forallb is_log_or_discover
                     (log ++ Log INFO "Expecting %s gateways" :: tr) = true).
    { rewrite forallb_app, Hlog. simpl. exact Hloop. }
    destruct (gateways hub) as [|gw found] eqn:Hfound;
      cbn [setup_ok setup_trace setup_hub]; split; try discriminate.
    + intros _. split.
      * rewrite forallb_app, Hpre. reflexivity.
      * eexists _, _. split; [reflexivity|reflexivity].
    + intros _. eexists _, hub. split; [reflexivity|].
      split; [exact Hpre|]. split; [reflexivity|].
      rewrite Hfound. discriminate.
  - cbn [setup_ok setup_trace]. split; [discriminate|]. intros _.
    split; [exact Hlog|].
    clear Hlog. revert log Hcheck.
    induction (conf_gateways config) as [|g gws IH]; intros log; simpl;
      [discriminate|].
    destruct (check_gateways gws) as [log0 r].
    destruct (conf_key g) as [key|].
    + destruct (String.length key =? 16)%nat.
      * destruct r; [discriminate|]. intros [= <-]. now apply IH.
      * intros [= <-]. exists [], invalid_key. split; reflexivity.
    + destruct r; [discriminate|]. intros [= <-].
      destruct (IH log0 eq_refl) as (pre & e & -> & He).
      exists (key_warning :: pre), e. split; [reflexivity|exact He].
Qed.

End SetupMore.

Section DiscoveryMore.

Context {C : Type} `{GatewayClient C}.

(** With a retry count of 0, which the schema allows, [setup] makes no
    discovery call and succeeds only if the client has a gateway from
    the start. *)
Theorem setup_zero_retries (config : Config) (log : list effect)
    (gws : list GatewayConfig) :
  check_gateways (conf_gateways config) = (log, Some gws) ->
  conf_discovery_retry config = 0%nat ->
  discover_calls (setup_trace (setup config)) = 0%nat
  /\ (setup_ok (setup config) = true <->
      gateways (PyXiaomiGateway gws (conf_interface config)) <> []).
Proof.
  intros Hcheck Hzero.
  destruct (setup_after_check config log gws Hcheck) as (Hn & Hnone & Hsome).
  rewrite Hzero in Hn, Hnone, Hsome. cbn [discovery_loop fst snd] in *.
  split; [exact Hn|]. split.
  - intros Hok Hempty. destruct (Hnone Hempty) as [Hfalse _]. congruence.
  - intros Hne. now apply Hsome.
Qed.

(** With a client that finds one more gateway at each call and at least
    one gateway configured, [setup] calls discovery as many times as
    gateways are configured, or as the retry count allows if that is
    less. *)
Theorem setup_one_gateway_per_call (config : Config) (log : list effect)
    (gws : list GatewayConfig) :
  check_gateways (conf_gateways config) = (log, Some gws) ->
  (forall j, (j <= conf_discovery_retry config)%nat ->
     length (gateways (after_calls j (PyXiaomiGateway gws (conf_interface config))))
     = j) ->
  (1 <= length (conf_gateways config))%nat ->
  discover_calls (setup_trace (setup config)) =
  Nat.min (length (conf_gateways config)) (conf_discovery_retry config).
Proof.
  intros Hcheck Hstep Hpos.
  destruct (setup_after_check config log gws Hcheck) as (Hn & _ & _).
  pose proof (discovery_loop_spec (conf_discovery_retry config) (length gws)
                (PyXiaomiGateway gws (conf_interface config))) as Hloop.
  cbv zeta in Hloop. rewrite <- Hn in Hloop.
  rewrite (check_gateways_length _ _ _ Hcheck) in Hloop.
  set (n := discover_calls (setup_trace (setup config))) in *.
  set (N := length (conf_gateways config)) in *.
  set (R := conf_discovery_retry config) in *.
  destruct Hloop as (_ & Hle & Hbelow & Hstop).
  assert (HnN : (n <= N)%nat).
  { destruct (Nat.le_gt_cases n N) as [Hok|Hgt]; [exact Hok|].
    specialize (Hbelow N ltac:(lia)). rewrite Hstep in Hbelow by lia. lia. }
  destruct (Nat.eq_dec n R) as [Heq|Hne]; [lia|].
  assert (Hlt : (n < R)%nat) by lia.
  specialize (Hstop Hlt). rewrite Hstep in Hstop by lia. lia.
Qed.

(** A discovery that ends before its tries are used up is the same
    under any larger retry count: same calls, same hub. *)
Theorem discovery_loop_more_retries (retry retry' expected : nat) (hub : C) :
  (discover_calls (snd (discovery_loop retry expected hub)) < retry)%nat ->
  (retry <= retry')%nat ->
  discovery_loop retry' expected hub = discovery_loop retry expected hub.
Proof.
  revert retry' hub. induction retry as [|retry IH]; intros retry' hub Hn Hle.
  - cbn in Hn. lia.
  - destruct retry' as [|retry']; [lia|].
    cbn [discovery_loop] in *.
    destruct (expected <=? length (gateways (discover_gateways hub)))%nat;
      [reflexivity|].
    rewrite (IH retry' (discover_gateways hub)); [reflexivity| |lia].
    destruct (discovery_loop retry expected (discover_gateways hub)) as [hub' tr'].
    cbn [snd] in *.
    change (discover_calls
              ([Log INFO "Discovering Xiaomi Gateways (Try %s)"; DiscoverGateways]
                 ++ tr'))
      with (S (discover_calls tr')) in Hn.
    lia.
Qed.

End DiscoveryMore.

Section SetupMoreInstances.

Lemma check_gateways_normalises_witness :
  exists gws',
    check_gateways (conf_gateways two_gateways) =
      (key_warnings (conf_gateways two_gateways), Some gws')
    /\ map conf_key gws' = map conf_key (conf_gateways two_gateways)
    /\ map conf_sid gws' =
       map (fun g => normalize_sid <$> conf_sid g) (conf_gateways two_gateways)
    /\ Forall (fun g' => forall s, conf_sid g' = Some s ->
                                   colon_free_lowercase s = true) gws'.
Proof.
  apply (check_gateways_normalises (conf_gateways two_gateways)).
  repeat constructor.
Defined.

Lemma check_gateways_idempotent_witness :
  check_gateways [mkGatewayConfig (Some "f0b429aa0001") None;
                  mkGatewayConfig (Some "f0b429aa0002") None] =
  ([key_warning; key_warning],
   Some [mkGatewayConfig (Some "f0b429aa0001") None;
         mkGatewayConfig (Some "f0b429aa0002") None]).
Proof.
  apply (check_gateways_idempotent (conf_gateways two_gateways)).
  reflexivity.
Defined.

Lemma setup_first_bad_key_witness :
  @setup _ two_step_client short_key =
  mkSetup false None (key_warnings [mkGatewayConfig None None] ++ [invalid_key]).
Proof.
  apply (@setup_first_bad_key _ two_step_client short_key
           [mkGatewayConfig None None] [] (mkGatewayConfig None (Some "abcde"))
           "abcde").
  - reflexivity.
  - repeat constructor.
  - reflexivity.
  - simpl. lia.
Defined.

Lemma setup_trace_shape_witness :
  (exists pre hub,
      setup_trace (@setup _ two_step_client two_gateways) = pre ++ setup_tail
      /\ forallb is_log_or_discover pre = true
      /\ setup_hub (@setup _ two_step_client two_gateways) =
         Some (@listen _ two_step_client hub)
      /\ @gateways _ two_step_client hub <> [])
  /\ (forallb is_log_or_discover (setup_trace (@setup _ silent_client two_gateways))
        = true
      /\ exists pre e,
           setup_trace (@setup _ silent_client two_gateways) = pre ++ [e]
           /\ is_error e = true).
Proof.
  split.
  - apply (proj1 (@setup_trace_shape _ two_step_client two_gateways)). reflexivity.
  - apply (proj2 (@setup_trace_shape _ silent_client two_gateways)). reflexivity.
Defined.

Lemma setup_zero_retries_witness :
  discover_calls (setup_trace (@setup _ two_step_client no_retry)) = 0%nat
  /\ (setup_ok (@setup _ two_step_client no_retry) = true <->
      @gateways _ two_step_client
        (@PyXiaomiGateway _ two_step_client
           [mkGatewayConfig (Some "f0b429aa0001") None] (conf_interface no_retry))
      <> []).
Proof.
  apply (@setup_zero_retries _ two_step_client no_retry [key_warning]
           [mkGatewayConfig (Some "f0b429aa0001") None]); reflexivity.
Defined.

Lemma setup_one_gateway_per_call_witness :
  discover_calls (setup_trace (@setup _ three_step_client two_gateways)) =
  Nat.min (length (conf_gateways two_gateways)) (conf_discovery_retry two_gateways).
Proof.
  apply (@setup_one_gateway_per_call _ three_step_client two_gateways
           [key_warning; key_warning]
           [mkGatewayConfig (Some "f0b429aa0001") None;
            mkGatewayConfig (Some "f0b429aa0002") None]).
  - reflexivity.
  - intros [|[|[|[|j]]]] Hj; [reflexivity..|]. simpl in Hj. lia.
  - simpl. lia.
Defined.

Lemma discovery_loop_more_retries_witness :
  @discovery_loop _ two_step_client 7 2 (mkHub [] (
    [[("192.168.1.10", hall)]; [("192.168.1.11", attic)]])) =
  @discovery_loop _ two_step_client 3 2 (mkHub [] (
    [[("192.168.1.10", hall)]; [("192.168.1.11", attic)]])).
Proof.
  apply (@discovery_loop_more_retries _ two_step_client 3 7 2).
  - vm_compute. lia.
  - lia.
Defined.

End SetupMoreInstances.

(** * Further properties of identifier normalisation *)

Section NormalisationMore.






Example normalize_sid_distinct :
  normalize_sid "34:CE:00:fa:5B:1c" <> normalize_sid "34:CE:00:fa:5B:1d".
Proof. discriminate. Qed.

End NormalisationMore.
